(** * Honest Grader AI: the response normalizer, the strictness switch and
    the user message

    A shallow embedding of [grader.py].  Python values are modelled as the
    interpreter has them: a [str] is a sequence of Unicode code points, a
    [dict] keeps its insertion order, an exception is an explicit outcome.

    Numbers.  A Python [int] is a [Z].  A Python [float] is a binary64
    value: [nan], an infinity, or the rational number a finite float is
    exactly; every operation returns its exact result rounded to the nearest
    such value.  The sign of zero is the one thing left out. *)

From Stdlib Require Import ZArith QArith Qabs Qround Qreduction List Bool String Ascii Lia Lqa.
Import ListNotations.

Local Open Scope Z_scope.

(** ** Outcomes of a Python call *)

Inductive exn : Type :=
| AttributeError | TypeError | ValueError | ZeroDivisionError | OverflowError
| JSONDecodeError | RecursionError | InvocationError.

Inductive outcome (A : Type) : Type :=
| Ok (a : A)
| Raise (e : exn).

Arguments Ok {A} a.
Arguments Raise {A} e.

Definition bind {A B : Type} (m : outcome A) (k : A -> outcome B) : outcome B :=
  match m with
  | Ok a => k a
  | Raise e => Raise e
  end.

Notation "x <- m ;; k" := (bind m (fun x => k))
  (at level 61, m at next level, right associativity).
Notation "' p <- m ;; k" := (bind m (fun p => k))
  (at level 61, p pattern, m at next level, right associativity).

(** ** Python strings *)

Module Str.

(** A [str] is its sequence of code points. *)
Definition str : Type := list Z.

(** The code points of an ASCII literal. *)
Definition lit (s : string) : str :=
  map (fun c => Z.of_N (N_of_ascii c)) (list_ascii_of_string s).

Fixpoint eqb (a b : str) : bool :=
  match a, b with
  | [], [] => true
  | x :: a', y :: b' => (x =? y) && eqb a' b'
  | _, _ => false
  end.

(** [c.isspace()] *)
Definition isspace (c : Z) : bool :=
  ((9 <=? c) && (c <=? 13)) || ((28 <=? c) && (c <=? 32))
  || (c =? 133) || (c =? 160) || (c =? 5760)
  || ((8192 <=? c) && (c <=? 8202))
  || (c =? 8232) || (c =? 8233) || (c =? 8239) || (c =? 8287) || (c =? 12288).

(** [s.lstrip(chars)], [s.rstrip(chars)] and [s.strip(chars)], with the
    set of characters given by its membership test. *)
Fixpoint lstrip_by (p : Z -> bool) (s : str) : str :=
  match s with
  | c :: s' => if p c then lstrip_by p s' else s
  | [] => []
  end.

Definition rstrip_by (p : Z -> bool) (s : str) : str :=
  rev (lstrip_by p (rev s)).

Definition strip_by (p : Z -> bool) (s : str) : str :=
  rstrip_by p (lstrip_by p s).

(** [s.strip()] *)
Definition strip (s : str) : str := strip_by isspace s.

Definition backtick : Z := 96.

(** [s.strip("`")] *)
Definition strip_backticks (s : str) : str :=
  strip_by (fun c => c =? backtick) s.

(** [s.startswith(p)] *)
Fixpoint startswith (s p : str) {struct p} : bool :=
  match p, s with
  | [], _ => true
  | x :: p', y :: s' => (x =? y) && startswith s' p'
  | _ :: _, [] => false
  end.

(** [c.lower()] for one code point.  The ASCII capitals map to their small
    letters.  Outside ASCII only two code points have a lower-case form that
    contains an ASCII character: U+0130 gives "i" followed by U+0307, and
    U+212A (the Kelvin sign) gives "k".  Every other code point is left in
    place: its lower-case form is a non-ASCII character that is white space
    exactly when the original is, and the program only compares lowered
    text with ASCII literals after trimming white space. *)
Definition lower_char (c : Z) : str :=
  if (65 <=? c) && (c <=? 90) then [c + 32]
  else if c =? 304 then [105; 775]
  else if c =? 8490 then [107]
  else [c].

(** [s.lower()] *)
Definition lower (s : str) : str := flat_map lower_char s.

(** The line boundaries of [str.splitlines]. *)
Definition is_linebreak (c : Z) : bool :=
  ((10 <=? c) && (c <=? 13)) || ((28 <=? c) && (c <=? 30))
  || (c =? 133) || (c =? 8232) || (c =? 8233).

(** [s.splitlines()]: [cur] is the line being read, in reverse.  A carriage
    return directly followed by a line feed is one boundary; a final
    boundary does not open an empty last line. *)
Fixpoint splitlines_aux (cur : str) (s : str) : list str :=
  match s with
  | [] => match cur with [] => [] | _ => [rev cur] end
  | c :: s' =>
      if is_linebreak c then
        match c, s' with
        | 13, 10 :: s'' => rev cur :: splitlines_aux [] s''
        | _, _ => rev cur :: splitlines_aux [] s'
        end
      else splitlines_aux (c :: cur) s'
  end.

Definition splitlines (s : str) : list str := splitlines_aux [] s.

(** [sep.join(parts)] *)
Fixpoint join (sep : str) (parts : list str) : str :=
  match parts with
  | [] => []
  | [p] => p
  | p :: rest => p ++ sep ++ join sep rest
  end.

End Str.

Import Str.


(** ** Python floats *)

Module Float.

(** A binary64 float: [nan], an infinity, or a finite value, given by the
    rational number it is exactly.  The sign of zero is not modelled. *)
Inductive pyfloat : Type :=
| FNan
| FInf (negative : bool)
| FFin (q : Q).

(** The integer nearest to [q], a tie going to the even one. *)
Definition round_half_even (q : Q) : Z :=
  let n := Qfloor q in
  let twice_rest := Qred (2 * (q - inject_Z n)) in
  match Qcompare twice_rest 1 with
  | Lt => n
  | Gt => (n + 1)%Z
  | Eq => if Z.even n then n else (n + 1)%Z
  end.

Definition pow2 (e : Z) : Q := Qpower 2 e.

(** The [e] with [2^e <= q < 2^(e+1)], for a positive [q]. *)
Definition floor_log2 (q : Q) : Z :=
  let e := (Z.log2 (Qnum q) - Z.log2 (Zpos (Qden q)))%Z in
  if Qle_bool (pow2 e) q then e else (e - 1)%Z.

(** Rounding to binary64, as every float operation ends: the nearest value
    with a significand of 53 bits and an exponent of at least -1074, a tie
    going to the even significand; from [2^1024] on, which is when the
    rounded significand [n] has [log2 n + t >= 1024], the result is an
    infinity.  The value is kept in lowest terms. *)
Definition round64 (q : Q) : pyfloat :=
  if Qeq_bool q 0 then FFin 0
  else
    let negative := (Qnum q <? 0)%Z in
    let a := Qabs q in
    let t := Z.max (floor_log2 a - 52) (-1074) in
    let n := round_half_even (a * pow2 (- t)) in
    let v := Qred (inject_Z n * pow2 t) in
    if (1024 <=? Z.log2 n + t)%Z then FInf negative
    else FFin (if negative then Qred (- v) else v).

Definition fin (q : Q) : pyfloat := round64 q.

Definition zero : pyfloat := FFin 0.
Definition one : pyfloat := FFin 1.
Definition hundred : pyfloat := FFin 100.

(** [float(z)] for an [int]: one too large for a float raises. *)
Definition of_int (z : Z) : outcome pyfloat :=
  match round64 (inject_Z z) with
  | FInf _ => Raise OverflowError
  | x => Ok x
  end.

Definition q_negative (q : Q) : bool := (Qnum q <? 0)%Z.
Definition q_zero (q : Q) : bool := (Qnum q =? 0)%Z.

(** [x + y] *)
Definition add (x y : pyfloat) : pyfloat :=
  match x, y with
  | FNan, _ | _, FNan => FNan
  | FInf a, FInf b => if Bool.eqb a b then FInf a else FNan
  | FInf a, FFin _ | FFin _, FInf a => FInf a
  | FFin p, FFin q => fin (p + q)
  end.

(** [x * y] *)
Definition mul (x y : pyfloat) : pyfloat :=
  match x, y with
  | FNan, _ | _, FNan => FNan
  | FInf a, FInf b => FInf (xorb a b)
  | FInf a, FFin q | FFin q, FInf a =>
      if q_zero q then FNan else FInf (xorb a (q_negative q))
  | FFin p, FFin q => fin (p * q)
  end.

(** [x / y]: a zero divisor raises. *)
Definition div (x y : pyfloat) : outcome pyfloat :=
  match x, y with
  | _, FFin q =>
      if q_zero q then Raise ZeroDivisionError
      else match x with
           | FNan => Ok FNan
           | FInf a => Ok (FInf (xorb a (q_negative q)))
           | FFin p => Ok (fin (p / q))
           end
  | FNan, _ | _, FNan => Ok FNan
  | FInf _, FInf _ => Ok FNan
  | FFin _, FInf _ => Ok zero
  end.

(** [x > n] and [x >= n] for an [int] literal [n]: the comparison of a
    float with an int is exact. *)
Definition gtb (x : pyfloat) (n : Z) : bool :=
  match x with
  | FNan => false
  | FInf negative => negb negative
  | FFin q => (n * Zpos (Qden q) <? Qnum q)%Z
  end.

Definition geb (x : pyfloat) (n : Z) : bool :=
  match x with
  | FNan => false
  | FInf negative => negb negative
  | FFin q => (n * Zpos (Qden q) <=? Qnum q)%Z
  end.

(** [round(x, 1)]: the multiple of one tenth nearest to the exact value of
    [x], a tie going to the even last digit, and then the float nearest to
    that decimal; [nan] and the infinities are returned as they are. *)
Definition round1 (x : pyfloat) : pyfloat :=
  match x with
  | FFin q => fin (round_half_even (q * 10) # 10)
  | _ => x
  end.

(** [bool(x)] *)
Definition truthy (x : pyfloat) : bool :=
  match x with
  | FFin q => negb (q_zero q)
  | _ => true
  end.

End Float.

Import Float.

(** ** JSON values, as [json.loads] builds them *)

Module Json.

(** [None], [bool], [int], [float], [str], [list] and [dict].  A [dict] is
    the list of its items in insertion order, with no key twice. *)
#[warnings="-register-all"] Inductive json : Type :=
| JNull
| JBool (b : bool)
| JInt (z : Z)
| JFloat (f : pyfloat)
| JStr (s : str)
| JList (l : list json)
| JDict (items : list (str * json)).

Definition dict : Type := list (str * json).

(** [d.get(k)], with [None] for Python's missing key *)
Fixpoint dict_get (d : dict) (k : str) : option json :=
  match d with
  | [] => None
  | (k', v) :: d' => if Str.eqb k' k then Some v else dict_get d' k
  end.

(** [d.get(k, default)] *)
Definition dict_get_default (d : dict) (k : str) (default : json) : json :=
  match dict_get d k with
  | Some v => v
  | None => default
  end.

(** [d[k] = v]: an existing key keeps its place, a new one goes last. *)
Fixpoint dict_set (d : dict) (k : str) (v : json) : dict :=
  match d with
  | [] => [(k, v)]
  | (k', v') :: d' =>
      if Str.eqb k' k then (k', v) :: d' else (k', v') :: dict_set d' k v
  end.

(** [bool(x)] *)
Definition truthy (x : json) : bool :=
  match x with
  | JNull => false
  | JBool b => b
  | JInt z => negb (z =? 0)
  | JFloat f => Float.truthy f
  | JStr s => match s with [] => false | _ => true end
  | JList l => match l with [] => false | _ => true end
  | JDict d => match d with [] => false | _ => true end
  end.

(** [iter(x)], unfolded: the entries of a list, the keys of a dict, the
    characters of a string; anything else is not iterable. *)
Definition iterate (x : json) : outcome (list json) :=
  match x with
  | JList l => Ok l
  | JDict d => Ok (map (fun kv => JStr (fst kv)) d)
  | JStr s => Ok (map (fun c => JStr [c]) s)
  | _ => Raise TypeError
  end.

(** [x.get(k, default)] on an arbitrary value: only a dict has [get]. *)
Definition get_attr_get (x : json) (k : str) (default : json) : outcome json :=
  match x with
  | JDict d => Ok (dict_get_default d k default)
  | _ => Raise AttributeError
  end.

End Json.

Import Json.

(** ** Number literals *)

Module Num.

Definition is_digit (c : Z) : bool := (48 <=? c) && (c <=? 57).

(** The longest run of ASCII digits at the head of [s], and what follows. *)
Fixpoint take_digits (s : str) : str * str :=
  match s with
  | c :: s' =>
      if is_digit c then let '(ds, r) := take_digits s' in (c :: ds, r)
      else ([], s)
  | [] => ([], [])
  end.

Definition digits_val (ds : str) : Z :=
  fold_left (fun a c => 10 * a + (c - 48)) ds 0.

(** An optional ['-'] (and ['+'] when [plus] is set). *)
Definition take_sign (plus : bool) (s : str) : bool * str :=
  match s with
  | 45 :: r => (true, r)
  | 43 :: r => if plus then (false, r) else (false, s)
  | _ => (false, s)
  end.

(** An exponent part [e], sign, digits; absent unless it has a digit. *)
Definition take_exponent (s : str) : option Z * str :=
  match s with
  | c :: r =>
      if (c =? 101) || (c =? 69) then
        let '(neg, r1) := take_sign true r in
        match take_digits r1 with
        | ([], _) => (None, s)
        | (ds, r2) =>
            (Some (if neg then - digits_val ds else digits_val ds), r2)
        end
      else (None, s)
  | [] => (None, s)
  end.

(** The value of the decimal [ip.fp] times ten to the [ex]. *)
Definition decimal (neg : bool) (ip fp : str) (ex : Z) : pyfloat :=
  let m := digits_val (ip ++ fp) in
  let q := (inject_Z m * Qpower (inject_Z 10) (ex - Z.of_nat (List.length fp)))%Q in
  fin (if neg then (- q)%Q else q).

End Num.

Import Num.

(** ** [float(s)] for a string *)

Module FloatStr.

(** The zero digits of the decimal-digit blocks outside ASCII (Unicode 14);
    each block holds the digits 0 to 9 in order. *)
Definition digit_zeros : list Z :=
  [ 1632; 1776; 1984; 2406; 2534; 2662; 2790; 2918; 3046; 3174; 3302; 3430;
    3558; 3664; 3792; 3872; 4160; 4240; 6112; 6160; 6470; 6608; 6784; 6800;
    6992; 7088; 7232; 7248; 42528; 43216; 43264; 43472; 43504; 43600; 44016;
    65296; 66720; 68912; 69734; 69872; 69942; 70096; 70384; 70736; 70864;
    71248; 71360; 71472; 71904; 72016; 72784; 73040; 73120; 92768; 92864;
    93008; 120782; 120792; 120802; 120812; 120822; 123200; 123632; 125264;
    130032 ].

Definition unicode_digit (c : Z) : option Z :=
  match find (fun z => (z <=? c) && (c <=? z + 9)) digit_zeros with
  | Some z => Some (c - z)
  | None => None
  end.

(** The text handed to the C parser: outside ASCII a space becomes [' '], a
    decimal digit its ASCII digit, and anything else ends the text with
    ['?'].  A text with no character above 127 is handed over as it is. *)
Fixpoint to_ascii (s : str) : str :=
  match s with
  | [] => []
  | c :: s' =>
      if c <? 127 then c :: to_ascii s'
      else if isspace c then 32 :: to_ascii s'
      else match unicode_digit c with
           | Some d => (48 + d) :: to_ascii s'
           | None => [63]
           end
  end.

Definition transform (s : str) : str :=
  if forallb (fun c => c <? 128) s then s else to_ascii s.

(** Underscores may only stand between two digits; they are then dropped.
    [prev] is the character before [s]. *)
Fixpoint drop_underscores (prev : Z) (s : str) : option str :=
  match s with
  | [] => if prev =? 95 then None else Some []
  | c :: s' =>
      if c =? 95 then
        if is_digit prev then drop_underscores c s' else None
      else if (prev =? 95) && negb (is_digit c) then None
      else option_map (cons c) (drop_underscores c s')
  end.

Definition c_isspace (c : Z) : bool := ((9 <=? c) && (c <=? 13)) || (c =? 32).

(** [inf], [infinity] or [nan] in any case, after an optional sign *)
Definition parse_inf_or_nan (s : str) : option pyfloat :=
  let '(neg, r) := take_sign true s in
  let w := Str.lower r in
  if Str.eqb w (lit "inf") || Str.eqb w (lit "infinity") then Some (FInf neg)
  else if Str.eqb w (lit "nan") then Some FNan
  else None.

(** A decimal numeral: sign, digits with an optional point, at least one
    digit, optional exponent; nothing may follow. *)
Definition parse_decimal (s : str) : option pyfloat :=
  let '(neg, r) := take_sign true s in
  let '(ip, r1) := take_digits r in
  let '(fp, r2) := match r1 with
                   | 46 :: r1' => take_digits r1'
                   | _ => ([], r1)
                   end in
  match ip ++ fp with
  | [] => None
  | _ =>
      let '(ex, r3) := take_exponent r2 in
      match r3 with
      | [] => Some (decimal neg ip fp (match ex with Some e => e | None => 0 end))
      | _ => None
      end
  end.

Definition float_of_str (s : str) : outcome pyfloat :=
  match drop_underscores 0 (transform s) with
  | None => Raise ValueError
  | Some t =>
      let body := strip_by c_isspace t in
      match parse_decimal body with
      | Some f => Ok f
      | None =>
          match parse_inf_or_nan body with
          | Some f => Ok f
          | None => Raise ValueError
          end
      end
  end.

End FloatStr.

Import FloatStr.

(** [float(x)] *)
Definition py_float (x : json) : outcome pyfloat :=
  match x with
  | JInt z => Float.of_int z
  | JFloat f => Ok f
  | JBool b => Ok (if b then Float.one else Float.zero)
  | JStr s => float_of_str s
  | JNull | JList _ | JDict _ => Raise TypeError
  end.

(** ** [json.loads] *)

Module Loads.

(** The decoder with its default settings, as the C scanner of the standard
    library runs it.  Every decoding error is a [JSONDecodeError].  The
    interpreter's limit on nesting depth is not modelled: [fuel] bounds the
    depth by the length of the text, which no document exceeds. *)

Definition is_ws (c : Z) : bool :=
  (c =? 32) || (c =? 9) || (c =? 10) || (c =? 13).

Definition skip_ws (s : str) : str := lstrip_by is_ws s.

Definition hexval (c : Z) : option Z :=
  if is_digit c then Some (c - 48)
  else if (97 <=? c) && (c <=? 102) then Some (c - 87)
  else if (65 <=? c) && (c <=? 70) then Some (c - 55)
  else None.

(** Four hexadecimal digits *)
Definition hex4 (s : str) : option (Z * str) :=
  match s with
  | a :: b :: c :: d :: r =>
      match hexval a, hexval b, hexval c, hexval d with
      | Some x, Some y, Some z, Some w =>
          Some (((x * 16 + y) * 16 + z) * 16 + w, r)
      | _, _, _, _ => None
      end
  | _ => None
  end.

Definition simple_escape (c : Z) : option Z :=
  if c =? 34 then Some 34          (* quote *)
  else if c =? 92 then Some 92     (* backslash *)
  else if c =? 47 then Some 47     (* slash *)
  else if c =? 98 then Some 8      (* b *)
  else if c =? 102 then Some 12    (* f *)
  else if c =? 110 then Some 10    (* n *)
  else if c =? 114 then Some 13    (* r *)
  else if c =? 116 then Some 9     (* t *)
  else None.

Definition is_high_surrogate (c : Z) : bool := (55296 <=? c) && (c <=? 56319).
Definition is_low_surrogate (c : Z) : bool := (56320 <=? c) && (c <=? 57343).

(** The body of a string literal, after its opening quote; [acc] is the
    text read so far, in reverse.  A raw control character is refused. *)
Fixpoint scanstring (fuel : nat) (s : str) (acc : str) : outcome (str * str) :=
  match fuel with
  | O => Raise JSONDecodeError
  | S fuel' =>
      match s with
      | [] => Raise JSONDecodeError
      | 34 :: r => Ok (rev acc, r)
      | 92 :: [] => Raise JSONDecodeError
      | 92 :: 117 :: r =>
          match hex4 r with
          | None => Raise JSONDecodeError
          | Some (c, r1) =>
              if is_high_surrogate c then
                match r1 with
                | 92 :: 117 :: r2 =>
                    match hex4 r2 with
                    | None => Raise JSONDecodeError
                    | Some (c2, r3) =>
                        if is_low_surrogate c2 then
                          scanstring fuel' r3
                            (65536 + ((c - 55296) * 1024 + (c2 - 56320)) :: acc)
                        else scanstring fuel' r1 (c :: acc)
                    end
                | _ => scanstring fuel' r1 (c :: acc)
                end
              else scanstring fuel' r1 (c :: acc)
          end
      | 92 :: e :: r =>
          match simple_escape e with
          | Some c => scanstring fuel' r (c :: acc)
          | None => Raise JSONDecodeError
          end
      | c :: r =>
          if c <=? 31 then Raise JSONDecodeError
          else scanstring fuel' r (c :: acc)
      end
  end.

(** A number: an optional minus sign; a zero, or a run of digits that does
    not start with zero; optionally a point and at least one digit;
    optionally an exponent.  With a fraction or an exponent it is a float,
    otherwise an int. *)
Definition match_number (s : str) : outcome (json * str) :=
  let '(neg, r) := take_sign false s in
  let '(ip, r1) := match r with
                   | 48 :: r' => ([48], r')
                   | _ => take_digits r
                   end in
  match ip with
  | [] => Raise JSONDecodeError
  | _ =>
      let '(fp, r2) := match r1 with
                       | 46 :: r1' =>
                           match take_digits r1' with
                           | ([], _) => ([], r1)
                           | (ds, r') => (ds, r')
                           end
                       | _ => ([], r1)
                       end in
      let '(ex, r3) := take_exponent r2 in
      match fp, ex with
      | [], None =>
          Ok (JInt (if neg then - digits_val ip else digits_val ip), r3)
      | _, _ =>
          Ok (JFloat (decimal neg ip fp
                        (match ex with Some e => e | None => 0 end)), r3)
      end
  end.

(** A constant [w] at the head of [s] *)
Definition keyword (w : string) (v : json) (s : str) : option (json * str) :=
  if startswith s (lit w) then Some (v, skipn (String.length w) s) else None.

Definition scan_constant (s : str) : outcome (json * str) :=
  match keyword "null" JNull s with Some r => Ok r | None =>
  match keyword "true" (JBool true) s with Some r => Ok r | None =>
  match keyword "false" (JBool false) s with Some r => Ok r | None =>
  match keyword "NaN" (JFloat FNan) s with Some r => Ok r | None =>
  match keyword "Infinity" (JFloat (FInf false)) s with Some r => Ok r | None =>
  match keyword "-Infinity" (JFloat (FInf true)) s with Some r => Ok r | None =>
  match_number s
  end end end end end end.

Section Containers.

(** The scanner for one value, given to the container loops. *)
Variable scan : str -> outcome (json * str).

(** The elements of an array after the first bracket and the white space
    behind it, when the array is not empty. *)
Fixpoint array_loop (n : nat) (s : str) (acc : list json)
  : outcome (json * str) :=
  match n with
  | O => Raise RecursionError
  | S n' =>
      '(v, r) <- scan s ;;
      match skip_ws r with
      | 93 :: r' => Ok (JList (rev (v :: acc)), r')
      | 44 :: r' => array_loop n' (skip_ws r') (v :: acc)
      | _ => Raise JSONDecodeError
      end
  end.

Definition parse_array (s : str) : outcome (json * str) :=
  match skip_ws s with
  | 93 :: r => Ok (JList [], r)
  | s' => array_loop (S (List.length s')) s' []
  end.

(** The members of an object; a repeated key keeps its first place and
    takes the last value. *)
Fixpoint object_loop (n : nat) (s : str) (acc : dict)
  : outcome (json * str) :=
  match n with
  | O => Raise RecursionError
  | S n' =>
      match s with
      | 34 :: r =>
          '(k, r1) <- scanstring (S (List.length r)) r [] ;;
          match skip_ws r1 with
          | 58 :: r2 =>
              '(v, r3) <- scan (skip_ws r2) ;;
              let acc' := dict_set acc k v in
              match skip_ws r3 with
              | 125 :: r' => Ok (JDict acc', r')
              | 44 :: r' => object_loop n' (skip_ws r') acc'
              | _ => Raise JSONDecodeError
              end
          | _ => Raise JSONDecodeError
          end
      | _ => Raise JSONDecodeError
      end
  end.

Definition parse_object (s : str) : outcome (json * str) :=
  match skip_ws s with
  | 125 :: r => Ok (JDict [], r)
  | s' => object_loop (S (List.length s')) s' []
  end.

End Containers.

(** One value at the head of [s], and the text behind it. *)
Fixpoint scan_once (fuel : nat) (s : str) : outcome (json * str) :=
  match fuel with
  | O => Raise RecursionError
  | S fuel' =>
      match s with
      | [] => Raise JSONDecodeError
      | 34 :: r =>
          '(t, r') <- scanstring (S (List.length r)) r [] ;; Ok (JStr t, r')
      | 123 :: r => parse_object (scan_once fuel') r
      | 91 :: r => parse_array (scan_once fuel') r
      | _ => scan_constant s
      end
  end.

(** [json.loads(s)]: a leading byte-order mark is refused; white space may
    surround the value; nothing else may follow it. *)
Definition json_loads (s : str) : outcome json :=
  match s with
  | 65279 :: _ => Raise JSONDecodeError
  | _ =>
      '(v, r) <- scan_once (S (List.length s)) (skip_ws s) ;;
      match skip_ws r with
      | [] => Ok v
      | _ => Raise JSONDecodeError
      end
  end.

End Loads.

Import Loads.

(** * The program *)

(** ** Prompt builder: the strictness switch *)

Definition easy_instructions : str :=
  lit ("Be supportive but still honest. Assume minor mistakes are common. "
       ++ "Do not over-penalize small grammar issues unless they hurt clarity.").

Definition hard_instructions : str :=
  lit ("Be strict and direct. Penalize weak evidence, vague claims, sloppy structure, "
       ++ "and unclear writing. Point out missing requirements explicitly.").

Definition balanced_instructions : str :=
  lit ("Be balanced and honest. Reward clarity and strong evidence. "
       ++ "Penalize confusion, missing rubric items, and weak reasoning.").

(** [level or "medium"]: [None] and the empty string give the default. *)
Definition or_medium (level : option str) : str :=
  match level with
  | None | Some [] => lit "medium"
  | Some s => s
  end.

Definition _strictness_instructions (level : option str) : str :=
  let level := strip (lower (or_medium level)) in
  if Str.eqb level (lit "easy") then easy_instructions
  else if Str.eqb level (lit "hard") then hard_instructions
  else balanced_instructions.

Definition _system_prompt : str :=
  lit ("You are Honest Grader AI, a fair but direct schoolwork grader. "
       ++ "You follow the rubric exactly, give scores with reasons, and provide actionable fixes. "
       ++ "You never invent sources or claim you verified facts online. "
       ++ "If the rubric is unclear, you make reasonable assumptions and state them.").

(** ** Response normalizer *)

Definition _default_letter_grade (pct : pyfloat) : str :=
  if geb pct 97 then lit "A+"
  else if geb pct 93 then lit "A"
  else if geb pct 90 then lit "A-"
  else if geb pct 87 then lit "B+"
  else if geb pct 83 then lit "B"
  else if geb pct 80 then lit "B-"
  else if geb pct 77 then lit "C+"
  else if geb pct 73 then lit "C"
  else if geb pct 70 then lit "C-"
  else if geb pct 67 then lit "D+"
  else if geb pct 63 then lit "D"
  else if geb pct 60 then lit "D-"
  else lit "F".

(** [lines = cleaned.splitlines()], and the first line dropped when it is a
    bare language tag. *)
Definition drop_tag (cleaned : str) : str :=
  let lines := splitlines cleaned in
  match lines with
  | first :: rest =>
      let tag := strip (lower first) in
      if Str.eqb tag (lit "json") || Str.eqb tag (lit "javascript")
      then join [10] rest
      else cleaned
  | [] => cleaned
  end.

(** The body of [if cleaned.startswith(fence)]: every backtick at either
    end goes, then the tag line. *)
Definition unfence (cleaned : str) : str :=
  let cleaned := strip_backticks cleaned in
  drop_tag cleaned.

Definition _safe_json_parse (text : str) : outcome json :=
  let cleaned := strip text in
  let cleaned := if startswith cleaned (lit "```") then unfence cleaned
                 else cleaned in
  let cleaned := strip cleaned in
  json_loads cleaned.

Definition is_none (x : json) : bool :=
  match x with JNull => true | _ => false end.

(** [float(item.get("score", 0))] and [float(item.get("max_score", 10))] *)
Definition item_score (item : json) : outcome pyfloat :=
  v <- get_attr_get item (lit "score") (JInt 0) ;; py_float v.

Definition item_max_score (item : json) : outcome pyfloat :=
  v <- get_attr_get item (lit "max_score") (JInt 10) ;; py_float v.

(** One turn of the loop over [rubric_breakdown]: the two additions are
    inside one [try], in this order, and [except Exception: pass] leaves the
    totals as the failing statement found them. *)
Definition add_item (totals : pyfloat * pyfloat) (item : json)
  : pyfloat * pyfloat :=
  let '(total, total_max) := totals in
  match item_score item with
  | Raise _ => (total, total_max)
  | Ok s =>
      let total := Float.add total s in
      match item_max_score item with
      | Raise _ => (total, total_max)
      | Ok m => (total, Float.add total_max m)
      end
  end.

Definition sum_breakdown (items : list json) : pyfloat * pyfloat :=
  fold_left add_item items (Float.zero, Float.zero).

(** [(float(overall) / float(overall_max)) * 100 if float(overall_max) > 0
    else 0.0], the condition first. *)
Definition percentage (overall overall_max : json) : outcome pyfloat :=
  m <- py_float overall_max ;;
  if gtb m 0 then
    o <- py_float overall ;;
    m <- py_float overall_max ;;
    q <- Float.div o m ;;
    Ok (Float.mul q Float.hundred)
  else Ok Float.zero.

(** [try: pct = ...  except Exception: pct = 0.0] *)
Definition percent_or_zero (overall overall_max : json) : pyfloat :=
  match percentage overall overall_max with
  | Ok pct => pct
  | Raise _ => Float.zero
  end.

Definition _postprocess (result : json) : outcome json :=
  match result with
  | JDict d =>
      let overall := dict_get_default d (lit "overall_score") JNull in
      let overall_max := dict_get_default d (lit "overall_max") JNull in
      '(d, overall, overall_max) <-
        (if is_none overall || is_none overall_max then
           items <- iterate (dict_get_default d (lit "rubric_breakdown") (JList [])) ;;
           let '(total, total_max) := sum_breakdown items in
           let overall := if is_none overall then JFloat total else overall in
           let overall_max :=
             if is_none overall_max then JFloat total_max else overall_max in
           let d := dict_set d (lit "overall_score") overall in
           let d := dict_set d (lit "overall_max") overall_max in
           Ok (d, overall, overall_max)
         else Ok (d, overall, overall_max)) ;;
      let pct := percent_or_zero overall overall_max in
      let d :=
        if negb (truthy (dict_get_default d (lit "letter_grade") JNull))
        then dict_set d (lit "letter_grade") (JStr (_default_letter_grade pct))
        else d in
      let d := dict_set d (lit "percent") (JFloat (round1 pct)) in
      Ok (JDict d)
  | _ => Raise AttributeError
  end.

(** The dict built in the [except] branch of [grade_work]. *)
Definition fallback (raw : str) : json :=
  JDict
    [ (lit "assumptions",
        JList [ JStr (lit "The model response was not valid JSON.");
                JStr (lit "Grading could not be parsed, so only the raw output is shown.") ]);
      (lit "rubric_breakdown", JList []);
      (lit "overall_score", JInt 0);
      (lit "overall_max", JInt 0);
      (lit "letter_grade", JStr (lit "N/A"));
      (lit "strengths", JList []);
      (lit "top_fixes", JList []);
      (lit "rewrite_suggestions", JList []);
      (lit "final_comment", JStr (strip raw)) ].

(** [grade_work] from the reply of the model service on: [raw] is the text
    that [await _call_ollama(...)] returned. *)
Definition normalize (raw : str) : outcome json :=
  let parsed := match _safe_json_parse raw with
                | Ok v => v
                | Raise _ => fallback raw
                end in
  _postprocess parsed.

(** [grade_work], with the call to the model service given by its outcome:
    a failure of the call is not caught and leaves [grade_work] as it is. *)
Definition grade_work (reply : outcome str) : outcome json :=
  raw <- reply ;;
  normalize raw.

(** * Definitions used by the statements *)

(** A text in double quotes, for writing JSON documents. *)
Definition quoted (s : string) : str := 34 :: lit s ++ [34].

(** The result of [_postprocess], from the totals it settled on: the dict
    [d1] holds them, and the grade and the percentage are written after. *)
Definition finish (d1 : dict) (overall overall_max : json) : json :=
  let pct := percent_or_zero overall overall_max in
  let d2 := if negb (truthy (dict_get_default d1 (lit "letter_grade") JNull))
            then dict_set d1 (lit "letter_grade") (JStr (_default_letter_grade pct))
            else d1 in
  JDict (dict_set d2 (lit "percent") (JFloat (round1 pct))).

(** The letter-grade table of the specification: the first row whose
    threshold the percentage reaches gives the grade, and "F" is the grade
    when no row does. *)
Definition grade_table : list (Z * string) :=
  [ (97, "A+"); (93, "A"); (90, "A-"); (87, "B+"); (83, "B"); (80, "B-");
    (77, "C+"); (73, "C"); (70, "C-"); (67, "D+"); (63, "D"); (60, "D-") ]%string.

Fixpoint table_lookup (table : list (Z * string)) (pct : pyfloat) : str :=
  match table with
  | [] => lit "F"
  | (threshold, grade) :: rest =>
      if geb pct threshold then lit grade else table_lookup rest pct
  end.

(** The amounts of an entry that can be read: its score and its maximum,
    when both convert. *)
Definition entry_amounts (item : json) : list (pyfloat * pyfloat) :=
  match item_score item, item_max_score item with
  | Ok s, Ok m => [(s, m)]
  | _, _ => []
  end.

(** The sum of floats, added one after the other to 0.0. *)
Definition sum_floats (l : list pyfloat) : pyfloat :=
  fold_left Float.add l Float.zero.

(** The two sums of the specification, over the entries that can be read. *)
Definition score_sum (items : list json) : pyfloat :=
  sum_floats (map fst (flat_map entry_amounts items)).

Definition max_sum (items : list json) : pyfloat :=
  sum_floats (map snd (flat_map entry_amounts items)).

(** An entry whose score can be read and whose maximum cannot. *)
Definition half_read (item : json) : Prop :=
  (exists s, item_score item = Ok s) /\ (exists e, item_max_score item = Raise e).

(** Reading a strictness level.  A character matches a small letter of a
    word when it is that letter or its capital; a text reads as the word
    when, white space at both ends apart, it matches it letter by letter. *)
Definition matches_letter (c w : Z) : Prop := c = w \/ c = w - 32.

Definition matches_word (core word : str) : Prop :=
  Forall2 matches_letter core word.

Definition all_space (s : str) : Prop := Forall (fun c => isspace c = true) s.

Definition reads_as (level : option str) (word : str) : Prop :=
  exists before core after,
    level = Some (before ++ core ++ after) /\
    all_space before /\ all_space after /\ matches_word core word.

(** A small ASCII letter other than "i" and "k", the two letters that a
    character outside ASCII lowers to. *)
Definition plain_letter (w : Z) : Prop := 97 <= w <= 122 /\ w <> 105 /\ w <> 107.

(** A run of [n] backticks. *)
Definition fence (n : nat) : str := repeat backtick n.

(** A text with no line boundary in it, and a text whose only line
    boundaries are line feeds. *)
Definition one_line (s : str) : Prop :=
  Forall (fun c => is_linebreak c = false) s.

Definition lf_only (s : str) : Prop :=
  Forall (fun c => is_linebreak c = true -> c = 10) s.

(** * The user message *)

(** The request of the caller.  The default of [strictness] is "medium". *)
Record GradeRequest : Type := {
  assignment_type : str;
  grade_level : str;
  rubric : str;
  student_work : str;
  strictness : str
}.

(** The lines of the template of [_user_prompt] from "Return your output"
    to its end; the doubled braces of the f-string are single braces in the
    text. *)
Definition instructions : list str :=
  [ lit "Return your output as VALID JSON only (no extra text), matching this schema:";
    [];
    lit "{";
    lit "  " ++ quoted "assumptions" ++ lit ": [" ++ quoted "..." ++ lit "],";
    lit "  " ++ quoted "rubric_breakdown" ++ lit ": [";
    lit "    {";
    lit "      " ++ quoted "criterion" ++ lit ": " ++ quoted "string" ++ lit ",";
    lit "      " ++ quoted "score" ++ lit ": number,";
    lit "      " ++ quoted "max_score" ++ lit ": number,";
    lit "      " ++ quoted "why" ++ lit ": " ++ quoted "string" ++ lit ",";
    lit "      " ++ quoted "how_to_improve" ++ lit ": [" ++ quoted "string"
      ++ lit ", " ++ quoted "string" ++ lit "]";
    lit "    }";
    lit "  ],";
    lit "  " ++ quoted "overall_score" ++ lit ": number,";
    lit "  " ++ quoted "overall_max" ++ lit ": number,";
    lit "  " ++ quoted "letter_grade" ++ lit ": " ++ quoted "string" ++ lit ",";
    lit "  " ++ quoted "strengths" ++ lit ": [" ++ quoted "string"
      ++ lit ", " ++ quoted "string" ++ lit "],";
    lit "  " ++ quoted "top_fixes" ++ lit ": [" ++ quoted "string"
      ++ lit ", " ++ quoted "string" ++ lit ", " ++ quoted "string" ++ lit "],";
    lit "  " ++ quoted "rewrite_suggestions" ++ lit ": [";
    lit "    {";
    lit "      " ++ quoted "original_excerpt" ++ lit ": " ++ quoted "string" ++ lit ",";
    lit "      " ++ quoted "improved_version" ++ lit ": " ++ quoted "string" ++ lit ",";
    lit "      " ++ quoted "reason" ++ lit ": " ++ quoted "string";
    lit "    }";
    lit "  ],";
    lit "  " ++ quoted "final_comment" ++ lit ": " ++ quoted "string";
    lit "}";
    [];
    lit "Rules:";
    lit "- If rubric does not list max scores, assume each criterion is out of 10.";
    lit "- Use short, specific " ++ [8220] ++ lit "why" ++ [8221]
      ++ lit " explanations tied to the student work.";
    lit "- If something is missing, say exactly what is missing.";
    lit "- Rewrite suggestions must use excerpts from the student work." ].

(** The f-string, which opens and ends with a line feed, and [.strip()]. *)
Definition _user_prompt (req : GradeRequest) : str :=
  strip
    ([10] ++ lit "ASSIGNMENT TYPE: " ++ assignment_type req ++ [10]
     ++ lit "GRADE LEVEL: " ++ grade_level req ++ [10]
     ++ lit "STRICTNESS MODE: " ++ strictness req ++ [10]
     ++ [10]
     ++ lit "RUBRIC (authoritative):" ++ [10]
     ++ rubric req ++ [10]
     ++ [10]
     ++ lit "STUDENT WORK TO GRADE:" ++ [10]
     ++ student_work req ++ [10]
     ++ [10]
     ++ join [10] instructions ++ [10]).

(** * Properties *)

(** ** Strings and dicts *)

Lemma eqb_eq (a b : str) : Str.eqb a b = true <-> a = b.
Proof.
  revert b; induction a as [|x a IH]; intros [|y b]; simpl;
    try (split; [discriminate | discriminate]); try tauto.
  rewrite andb_true_iff, Z.eqb_eq, IH.
  split; [intros [-> ->]; reflexivity | intros H; inversion H; auto].
Qed.

Lemma eqb_refl (a : str) : Str.eqb a a = true.
Proof. apply eqb_eq; reflexivity. Qed.

Lemma eqb_neq (a b : str) : Str.eqb a b = false <-> a <> b.
Proof.
  rewrite <- eqb_eq. destruct (Str.eqb a b); split; congruence.
Qed.

Lemma dict_get_set_same (d : dict) (k : str) (v : json) :
  dict_get (dict_set d k v) k = Some v.
Proof.
  induction d as [|[k' v'] d IH]; simpl.
  - rewrite eqb_refl; reflexivity.
  - destruct (Str.eqb k' k) eqn:E; simpl; rewrite E; auto.
Qed.

Lemma dict_get_set_other (d : dict) (k k0 : str) (v : json) :
  k <> k0 -> dict_get (dict_set d k v) k0 = dict_get d k0.
Proof.
  intros Hne. induction d as [|[k' v'] d IH]; simpl.
  - apply eqb_neq in Hne. rewrite Hne; reflexivity.
  - destruct (Str.eqb k' k) eqn:E; simpl.
    + apply eqb_eq in E; subst k'.
      apply eqb_neq in Hne. rewrite Hne; reflexivity.
    + destruct (Str.eqb k' k0); auto.
Qed.

Lemma dict_get_default_set_same (d : dict) (k : str) (v x : json) :
  dict_get_default (dict_set d k v) k x = v.
Proof. unfold dict_get_default. rewrite dict_get_set_same; reflexivity. Qed.

Lemma dict_get_default_set_other (d : dict) (k k0 : str) (v x : json) :
  k <> k0 -> dict_get_default (dict_set d k v) k0 x = dict_get_default d k0 x.
Proof.
  intros H. unfold dict_get_default. rewrite dict_get_set_other; auto.
Qed.

(** Two ASCII literals that differ are different keys. *)
Ltac lit_neq := apply eqb_neq; vm_compute; reflexivity.

(** ** The normalizer on replies that are JSON but not an object *)

(** C1 (the claim fails on the code): the reply [[]] is valid JSON, so the
    fallback of [grade_work] is not taken, and [_postprocess] calls [get] on
    a list: the [AttributeError] leaves [grade_work].  An object whose
    [rubric_breakdown] is [null] leaves it with a [TypeError]. *)
Theorem C1_non_object_reply_raises :
  _safe_json_parse (lit "[]") = Ok (JList []) /\
  normalize (lit "[]") = Raise AttributeError /\
  grade_work (Ok (lit "[]")) = Raise AttributeError /\
  normalize (lit "{" ++ quoted "rubric_breakdown" ++ lit ":null}")
    = Raise TypeError.
Proof. vm_compute. repeat split. Qed.

(** ** The fallback object *)

(** C5: when the reply cannot be extracted as JSON, the normalizer returns,
    without raising, the fallback object with [percent] added: the two
    advisory strings, empty lists, scores 0 and 0, grade "N/A", percent 0.0,
    and the trimmed reply as the final comment. *)
Theorem C5_unparseable_reply_gives_fallback (raw : str) (e : exn) :
  _safe_json_parse raw = Raise e ->
  normalize raw =
    Ok (JDict
      [ (lit "assumptions",
          JList [ JStr (lit "The model response was not valid JSON.");
                  JStr (lit "Grading could not be parsed, so only the raw output is shown.") ]);
        (lit "rubric_breakdown", JList []);
        (lit "overall_score", JInt 0);
        (lit "overall_max", JInt 0);
        (lit "letter_grade", JStr (lit "N/A"));
        (lit "strengths", JList []);
        (lit "top_fixes", JList []);
        (lit "rewrite_suggestions", JList []);
        (lit "final_comment", JStr (strip raw));
        (lit "percent", JFloat (FFin 0)) ]).
Proof.
  intros H. unfold normalize. rewrite H. reflexivity.
Qed.

Lemma C5_witness :
  _safe_json_parse (lit "Sorry, I cannot grade this.") = Raise JSONDecodeError /\
  exists d, normalize (lit "Sorry, I cannot grade this.") = Ok (JDict d) /\
            dict_get d (lit "final_comment")
              = Some (JStr (lit "Sorry, I cannot grade this.")) /\
            dict_get d (lit "percent") = Some (JFloat (FFin 0)).
Proof.
  split; [vm_compute; reflexivity|].
  eexists; split.
  - apply (C5_unparseable_reply_gives_fallback
             (lit "Sorry, I cannot grade this.") JSONDecodeError).
    vm_compute; reflexivity.
  - split; vm_compute; reflexivity.
Defined.

(** ** Fields that are already there *)

Lemma postprocess_complete_object (d : dict) (overall overall_max : json) :
  dict_get d (lit "overall_score") = Some overall -> overall <> JNull ->
  dict_get d (lit "overall_max") = Some overall_max -> overall_max <> JNull ->
  truthy (dict_get_default d (lit "letter_grade") JNull) = true ->
  _postprocess (JDict d) =
    Ok (JDict (dict_set d (lit "percent")
                 (JFloat (round1 (percent_or_zero overall overall_max))))).
Proof.
  intros Ho Hno Hm Hnm Hl.
  assert (dict_get_default d (lit "overall_score") JNull = overall) as Eo
    by (unfold dict_get_default; rewrite Ho; reflexivity).
  assert (dict_get_default d (lit "overall_max") JNull = overall_max) as Em
    by (unfold dict_get_default; rewrite Hm; reflexivity).
  assert (is_none overall = false) as No
    by (destruct overall; simpl; congruence).
  assert (is_none overall_max = false) as Nm
    by (destruct overall_max; simpl; congruence).
  unfold _postprocess. cbv zeta. rewrite Eo, Em, No, Nm.
  cbn [orb bind]. rewrite Hl. reflexivity.
Qed.

(** C9: an object that already has [overall_score], [overall_max] (both not
    [null]) and a non-empty [letter_grade] comes back with [percent] set and
    nothing else touched: the three fields and every other key keep their
    values, and the keys keep their order. *)
Theorem C9_complete_object_only_gains_percent
  (d : dict) (overall overall_max grade : json) :
  dict_get d (lit "overall_score") = Some overall -> overall <> JNull ->
  dict_get d (lit "overall_max") = Some overall_max -> overall_max <> JNull ->
  dict_get d (lit "letter_grade") = Some grade -> truthy grade = true ->
  exists pct : pyfloat,
    _postprocess (JDict d) = Ok (JDict (dict_set d (lit "percent") (JFloat pct))) /\
    dict_get (dict_set d (lit "percent") (JFloat pct)) (lit "overall_score")
      = Some overall /\
    dict_get (dict_set d (lit "percent") (JFloat pct)) (lit "overall_max")
      = Some overall_max /\
    dict_get (dict_set d (lit "percent") (JFloat pct)) (lit "letter_grade")
      = Some grade /\
    forall k, k <> lit "percent" ->
              dict_get (dict_set d (lit "percent") (JFloat pct)) k = dict_get d k.
Proof.
  intros Ho Hno Hm Hnm Hg Ht.
  eexists; split.
  - apply (postprocess_complete_object d overall overall_max); auto.
    unfold dict_get_default; rewrite Hg; exact Ht.
  - repeat split.
    + rewrite dict_get_set_other; [exact Ho | lit_neq].
    + rewrite dict_get_set_other; [exact Hm | lit_neq].
    + rewrite dict_get_set_other; [exact Hg | lit_neq].
    + intros k Hk. apply dict_get_set_other. congruence.
Qed.

Lemma C9_witness :
  exists pct : pyfloat,
    _postprocess (JDict [ (lit "overall_score", JInt 15);
                          (lit "overall_max", JInt 20);
                          (lit "letter_grade", JStr (lit "B-"));
                          (lit "final_comment", JStr (lit "Solid work.")) ])
    = Ok (JDict [ (lit "overall_score", JInt 15);
                  (lit "overall_max", JInt 20);
                  (lit "letter_grade", JStr (lit "B-"));
                  (lit "final_comment", JStr (lit "Solid work."));
                  (lit "percent", JFloat pct) ]).
Proof.
  assert (JInt 15 <> JNull) as N1 by discriminate.
  assert (JInt 20 <> JNull) as N2 by discriminate.
  pose proof (C9_complete_object_only_gains_percent
                [ (lit "overall_score", JInt 15);
                  (lit "overall_max", JInt 20);
                  (lit "letter_grade", JStr (lit "B-"));
                  (lit "final_comment", JStr (lit "Solid work.")) ]
                (JInt 15) (JInt 20) (JStr (lit "B-"))
                eq_refl N1 eq_refl N2 eq_refl eq_refl) as (pct & H & _).
  exists pct. exact H.
Defined.


(** ** The percentage *)

Lemma gtb_pos_not_zero (q : Q) : gtb (FFin q) 0 = true -> q_zero q = false.
Proof.
  unfold gtb, q_zero. rewrite Z.ltb_lt. intros H.
  apply Z.eqb_neq. lia.
Qed.

Lemma div_positive_ok (x y : pyfloat) :
  gtb y 0 = true -> exists q, Float.div x y = Ok q.
Proof.
  intros Hy. destruct y as [|neg|d]; cbn [gtb] in Hy; try discriminate.
  - destruct x; cbn [Float.div]; eauto.
  - pose proof (gtb_pos_not_zero d Hy) as Hz.
    destruct x; cbn [Float.div]; rewrite Hz; eauto.
Qed.

(** With a maximum above zero the percentage is the quotient, taken first,
    times 100. *)
Lemma percent_or_zero_ratio (overall overall_max : json) (s m : pyfloat) :
  py_float overall = Ok s -> py_float overall_max = Ok m -> gtb m 0 = true ->
  exists q, Float.div s m = Ok q /\
            percent_or_zero overall overall_max = Float.mul q Float.hundred.
Proof.
  intros Hs Hm Hpos. unfold percent_or_zero, percentage.
  rewrite Hm; cbn [bind]. rewrite Hpos, Hs; cbn [bind].
  destruct (div_positive_ok s m Hpos) as [q Hq]. rewrite Hq; cbn [bind].
  eauto.
Qed.

Lemma percent_or_zero_not_positive (overall overall_max : json) (m : pyfloat) :
  py_float overall_max = Ok m -> gtb m 0 = false ->
  percent_or_zero overall overall_max = Float.zero.
Proof.
  intros Hm Hpos. unfold percent_or_zero, percentage.
  rewrite Hm; cbn [bind]. rewrite Hpos. reflexivity.
Qed.

Lemma percent_or_zero_max_fails (overall overall_max : json) (e : exn) :
  py_float overall_max = Raise e ->
  percent_or_zero overall overall_max = Float.zero.
Proof.
  intros Hm. unfold percent_or_zero, percentage. rewrite Hm. reflexivity.
Qed.

Lemma percent_or_zero_score_fails (overall overall_max : json) (e : exn) :
  py_float overall = Raise e ->
  percent_or_zero overall overall_max = Float.zero.
Proof.
  intros Hs. unfold percent_or_zero, percentage.
  destruct (py_float overall_max) as [m|e'] eqn:Hm; cbn [bind]; auto.
  destruct (gtb m 0); auto. rewrite Hs. reflexivity.
Qed.

(** ** What [_postprocess] returns *)

Lemma postprocess_cases (d : dict) (y : json) :
  _postprocess (JDict d) = Ok y ->
  let overall := dict_get_default d (lit "overall_score") JNull in
  let overall_max := dict_get_default d (lit "overall_max") JNull in
  (is_none overall = false /\ is_none overall_max = false /\
   y = finish d overall overall_max)
  \/
  (exists items,
     (is_none overall = true \/ is_none overall_max = true) /\
     iterate (dict_get_default d (lit "rubric_breakdown") (JList [])) = Ok items /\
     let o' := if is_none overall then JFloat (fst (sum_breakdown items))
               else overall in
     let m' := if is_none overall_max then JFloat (snd (sum_breakdown items))
               else overall_max in
     y = finish (dict_set (dict_set d (lit "overall_score") o')
                   (lit "overall_max") m') o' m').
Proof.
  unfold _postprocess. cbv zeta.
  destruct (is_none (dict_get_default d (lit "overall_score") JNull)) eqn:Eo;
  destruct (is_none (dict_get_default d (lit "overall_max") JNull)) eqn:Em;
    cbn [orb bind].
  4: { intros H; inversion H; left; auto. }
  all: destruct (iterate _) as [items|e] eqn:Ei; cbn [bind]; try discriminate;
    destruct (sum_breakdown items) as [t tm] eqn:Es; cbn [bind fst snd];
    intros H; inversion H; right; exists items;
    rewrite Es; cbn [fst snd]; auto.
Qed.

Lemma postprocess_only_objects (x y : json) :
  _postprocess x = Ok y -> exists d, x = JDict d.
Proof. destruct x; simpl; try discriminate. eauto. Qed.

Lemma finish_fields (d1 : dict) (overall overall_max : json) :
  dict_get_default d1 (lit "overall_score") JNull = overall ->
  dict_get_default d1 (lit "overall_max") JNull = overall_max ->
  exists r, finish d1 overall overall_max = JDict r /\
    dict_get_default r (lit "overall_score") JNull = overall /\
    dict_get_default r (lit "overall_max") JNull = overall_max /\
    dict_get r (lit "percent")
      = Some (JFloat (round1 (percent_or_zero overall overall_max))) /\
    (truthy (dict_get_default d1 (lit "letter_grade") JNull) = false ->
     dict_get r (lit "letter_grade")
       = Some (JStr (_default_letter_grade (percent_or_zero overall overall_max)))) /\
    (truthy (dict_get_default d1 (lit "letter_grade") JNull) = true ->
     dict_get r (lit "letter_grade") = dict_get d1 (lit "letter_grade")).
Proof.
  intros Ho Hm. unfold finish. cbv zeta. eexists; split; [reflexivity|].
  destruct (truthy (dict_get_default d1 (lit "letter_grade") JNull));
    cbn [negb]; repeat split; try discriminate.
  1-2, 5-6: rewrite !dict_get_default_set_other by lit_neq; assumption.
  1, 3: apply dict_get_set_same.
  - intros _. rewrite dict_get_set_other by lit_neq. reflexivity.
  - intros _. rewrite dict_get_set_other by lit_neq. apply dict_get_set_same.
Qed.

Lemma postprocess_fields (x y : json) :
  _postprocess x = Ok y ->
  exists d r overall overall_max,
    x = JDict d /\ y = JDict r /\
    dict_get_default r (lit "overall_score") JNull = overall /\
    dict_get_default r (lit "overall_max") JNull = overall_max /\
    dict_get r (lit "percent")
      = Some (JFloat (round1 (percent_or_zero overall overall_max))) /\
    (truthy (dict_get_default d (lit "letter_grade") JNull) = false ->
     dict_get r (lit "letter_grade")
       = Some (JStr (_default_letter_grade (percent_or_zero overall overall_max)))).
Proof.
  intros H. destruct (postprocess_only_objects x y H) as [d ->].
  destruct (postprocess_cases d y H) as [(_ & _ & Hy) | (items & _ & _ & Hy)];
    cbv zeta in Hy.
  - destruct (finish_fields d _ _ eq_refl eq_refl)
      as (r & Hr & Ho & Hm & Hp & Hl & _).
    exists d, r, (dict_get_default d (lit "overall_score") JNull),
      (dict_get_default d (lit "overall_max") JNull).
    rewrite Hy, Hr. repeat split; assumption.
  - match type of Hy with
    | y = finish ?d1 ?o ?m =>
        destruct (finish_fields d1 o m) as (r & Hr & Ho & Hm & Hp & Hl & _);
          [| | exists d, r, o, m]
    end.
    + rewrite dict_get_default_set_other by lit_neq.
      apply dict_get_default_set_same.
    + apply dict_get_default_set_same.
    + rewrite Hy, Hr. repeat split; try assumption.
      intros Ht. apply Hl.
      rewrite !dict_get_default_set_other by lit_neq. exact Ht.
Qed.


(** C2 (the claim fails on the code): for 23 out of 80 the code divides
    first: 23/80 rounds to a float just below 0.2875, times 100 is
    28.749999999999996, and [percent] is 28.7.  The formula of the claim,
    [round(100 * 23 / 80, 1)], is the round of 28.75 exactly, 28.8. *)
Lemma C2_counterexample :
  exists r,
    _postprocess (JDict [ (lit "overall_score", JInt 23);
                          (lit "overall_max", JInt 80);
                          (lit "letter_grade", JStr (lit "F")) ]) = Ok (JDict r) /\
    dict_get r (lit "overall_score") = Some (JInt 23) /\
    dict_get r (lit "overall_max") = Some (JInt 80) /\
    dict_get r (lit "percent") = Some (JFloat (fin (287 # 10))) /\
    Float.div (Float.mul Float.hundred (FFin 23)) (FFin 80) = Ok (FFin (115 # 4)) /\
    round1 (FFin (115 # 4)) = fin (288 # 10) /\
    fin (287 # 10) <> fin (288 # 10).
Proof.
  eexists. split; [vm_compute; reflexivity|].
  repeat split; try (vm_compute; reflexivity).
  vm_compute. discriminate.
Qed.

(** C2, amended: in every result of the normalizer, with [s] and [m] the
    values of [overall_score] and [overall_max] in that result: when
    [float(m) > 0], [percent] is [round((float(s) / float(m)) * 100, 1)],
    the quotient taken first and each step rounded as floats are; it is 0.0
    when [float(m)] is not above zero; and it is 0.0 when [float(s)] or
    [float(m)] raises.  No case raises. *)
Theorem C2_percent_formula (x y : json) :
  _postprocess x = Ok y ->
  exists r p,
    y = JDict r /\ dict_get r (lit "percent") = Some (JFloat p) /\
    let s := dict_get_default r (lit "overall_score") JNull in
    let m := dict_get_default r (lit "overall_max") JNull in
    (forall fs fm, py_float s = Ok fs -> py_float m = Ok fm -> gtb fm 0 = true ->
       exists q, Float.div fs fm = Ok q /\
                 p = round1 (Float.mul q Float.hundred)) /\
    (forall fm, py_float m = Ok fm -> gtb fm 0 = false -> p = FFin 0) /\
    (forall e, py_float s = Raise e \/ py_float m = Raise e -> p = FFin 0).
Proof.
  intros H.
  destruct (postprocess_fields x y H) as (d & r & o & m & _ & -> & Ho & Hm & Hp & _).
  exists r. eexists. split; [reflexivity|]. split; [exact Hp|].
  cbv zeta. rewrite Ho, Hm. repeat split.
  - intros fs fm Hs Hfm Hpos.
    destruct (percent_or_zero_ratio o m fs fm Hs Hfm Hpos) as (q & Hq & ->).
    eauto.
  - intros fm Hfm Hpos.
    rewrite (percent_or_zero_not_positive o m fm Hfm Hpos). reflexivity.
  - intros e [He | He].
    + rewrite (percent_or_zero_score_fails o m e He). reflexivity.
    + rewrite (percent_or_zero_max_fails o m e He). reflexivity.
Qed.

Lemma C2_witness :
  exists r, _postprocess (JDict [ (lit "overall_score", JInt 15);
                                  (lit "overall_max", JInt 20);
                                  (lit "rubric_breakdown", JList []) ])
            = Ok (JDict r) /\
            dict_get r (lit "percent") = Some (JFloat (FFin 75)).
Proof.
  destruct (C2_percent_formula
              (JDict [ (lit "overall_score", JInt 15);
                       (lit "overall_max", JInt 20);
                       (lit "rubric_breakdown", JList []) ])
              (JDict [ (lit "overall_score", JInt 15);
                       (lit "overall_max", JInt 20);
                       (lit "rubric_breakdown", JList []);
                       (lit "letter_grade", JStr (lit "C"));
                       (lit "percent", JFloat (FFin 75)) ]))
    as (r & p & Hy & Hp & Hpos & _).
  - vm_compute. reflexivity.
  - assert (p = FFin 75) as Hp0.
    { destruct (Hpos (FFin 15) (FFin 20)) as (q & Hq & ->);
        [inversion Hy; subst r; vm_compute; reflexivity ..|].
      vm_compute in Hq. inversion Hq. vm_compute. reflexivity. }
    subst p. inversion Hy; subst r.
    eexists. split; [vm_compute; reflexivity|]. exact Hp.
Defined.

(** ** The letter grade *)

Lemma default_letter_grade_is_table (pct : pyfloat) :
  _default_letter_grade pct = table_lookup grade_table pct.
Proof. reflexivity. Qed.

(** C4 (the claim fails on the code): for 9696 out of 10000 the result has
    [percent] 97.0, which the table sends to "A+", and [letter_grade] "A":
    the grade was looked up for 96.96, the percentage before rounding. *)
Lemma C4_counterexample :
  exists r,
    dict_get [ (lit "overall_score", JInt 9696); (lit "overall_max", JInt 10000) ]
      (lit "letter_grade") = None /\
    _postprocess (JDict [ (lit "overall_score", JInt 9696);
                          (lit "overall_max", JInt 10000) ]) = Ok (JDict r) /\
    dict_get r (lit "percent") = Some (JFloat (FFin 97)) /\
    table_lookup grade_table (FFin 97) = lit "A+" /\
    dict_get r (lit "letter_grade") = Some (JStr (lit "A")) /\
    lit "A" <> lit "A+".
Proof.
  eexists. split; [reflexivity|]. split; [vm_compute; reflexivity|].
  repeat split; try (vm_compute; reflexivity). discriminate.
Qed.

(** C4, amended: when [letter_grade] is absent or empty, the normalizer
    writes the grade that the threshold table (top-down, first match) gives
    for the percentage before it is rounded to one decimal; [percent] is
    that percentage rounded.  At the boundaries: 97.0 gives "A+", 96.9 "A",
    60.0 "D-" and 59.9 "F". *)
Theorem C4_letter_grade_from_unrounded_percentage (d : dict) (y : json) :
  dict_get d (lit "letter_grade") = None \/
  dict_get d (lit "letter_grade") = Some (JStr []) ->
  _postprocess (JDict d) = Ok y ->
  exists r pct,
    y = JDict r /\
    pct = percent_or_zero (dict_get_default r (lit "overall_score") JNull)
                          (dict_get_default r (lit "overall_max") JNull) /\
    dict_get r (lit "letter_grade") = Some (JStr (table_lookup grade_table pct)) /\
    dict_get r (lit "percent") = Some (JFloat (round1 pct)) /\
    table_lookup grade_table (fin (97 # 1)) = lit "A+" /\
    table_lookup grade_table (fin (969 # 10)) = lit "A" /\
    table_lookup grade_table (fin (60 # 1)) = lit "D-" /\
    table_lookup grade_table (fin (599 # 10)) = lit "F".
Proof.
  intros Habs H.
  destruct (postprocess_fields _ _ H)
    as (d' & r & o & m & Hd & -> & Ho & Hm & Hp & Hl).
  inversion Hd; subst d'.
  exists r, (percent_or_zero o m). rewrite Ho, Hm.
  repeat split; try reflexivity; try exact Hp.
  rewrite <- default_letter_grade_is_table. apply Hl.
  unfold dict_get_default. destruct Habs as [-> | ->]; reflexivity.
Qed.

Lemma C4_witness :
  exists r pct,
    _postprocess (JDict [ (lit "overall_score", JInt 9696);
                          (lit "overall_max", JInt 10000) ]) = Ok (JDict r) /\
    dict_get r (lit "letter_grade")
      = Some (JStr (table_lookup grade_table pct)) /\
    dict_get r (lit "percent") = Some (JFloat (round1 pct)).
Proof.
  assert (_postprocess (JDict [ (lit "overall_score", JInt 9696);
                                (lit "overall_max", JInt 10000) ])
          = Ok (JDict [ (lit "overall_score", JInt 9696);
                        (lit "overall_max", JInt 10000);
                        (lit "letter_grade", JStr (lit "A"));
                        (lit "percent", JFloat (FFin 97)) ])) as Hrun
    by (vm_compute; reflexivity).
  pose proof (C4_letter_grade_from_unrounded_percentage
                [ (lit "overall_score", JInt 9696); (lit "overall_max", JInt 10000) ]
                _ (or_introl eq_refl) Hrun)
    as (r & pct & Hy & _ & Hl & Hp & _).
  exists r, pct. rewrite <- Hy. repeat split; assumption.
Defined.

(** ** Sums over the rubric breakdown *)

(** One turn of the loop adds the amounts of an entry that can be read, and
    nothing for one whose score cannot be read. *)
Lemma add_item_amounts (total total_max : pyfloat) (item : json) :
  ~ half_read item ->
  add_item (total, total_max) item =
    (fold_left Float.add (map fst (entry_amounts item)) total,
     fold_left Float.add (map snd (entry_amounts item)) total_max).
Proof.
  intros Hh. unfold add_item, entry_amounts, half_read in *.
  destruct (item_score item) as [s|e]; [|reflexivity].
  destruct (item_max_score item) as [m|e]; [reflexivity|].
  exfalso. apply Hh. split; eauto.
Qed.

Lemma fold_add_item (items : list json) (total total_max : pyfloat) :
  Forall (fun item => ~ half_read item) items ->
  fold_left add_item items (total, total_max) =
    (fold_left Float.add (map fst (flat_map entry_amounts items)) total,
     fold_left Float.add (map snd (flat_map entry_amounts items)) total_max).
Proof.
  revert total total_max.
  induction items as [|item items IH]; intros total total_max Hall;
    [reflexivity|].
  inversion Hall as [|? ? Hitem Hrest]; subst.
  cbn [fold_left flat_map]. rewrite add_item_amounts by assumption.
  rewrite IH by assumption. rewrite !map_app, !fold_left_app. reflexivity.
Qed.

(** The loop computes the two sums of the specification. *)
Lemma sum_breakdown_sums (items : list json) :
  Forall (fun item => ~ half_read item) items ->
  sum_breakdown items = (score_sum items, max_sum items).
Proof. intros Hall. apply fold_add_item, Hall. Qed.

Lemma postprocess_recompute (d : dict) (items : list json) :
  let overall := dict_get_default d (lit "overall_score") JNull in
  let overall_max := dict_get_default d (lit "overall_max") JNull in
  is_none overall = true \/ is_none overall_max = true ->
  iterate (dict_get_default d (lit "rubric_breakdown") (JList [])) = Ok items ->
  let o' := if is_none overall then JFloat (fst (sum_breakdown items))
            else overall in
  let m' := if is_none overall_max then JFloat (snd (sum_breakdown items))
            else overall_max in
  _postprocess (JDict d) =
    Ok (finish (dict_set (dict_set d (lit "overall_score") o')
                  (lit "overall_max") m') o' m').
Proof.
  cbv zeta. intros Habs Hit. unfold _postprocess. cbv zeta.
  assert (is_none (dict_get_default d (lit "overall_score") JNull)
          || is_none (dict_get_default d (lit "overall_max") JNull) = true) as ->
    by (destruct Habs as [-> | ->]; [reflexivity | apply orb_true_r]).
  rewrite Hit. cbn [bind].
  destruct (sum_breakdown items) as [t tm]. reflexivity.
Qed.

Lemma dict_get_of_default (r : dict) (k : str) (v : json) :
  dict_get_default r k JNull = v -> v <> JNull -> dict_get r k = Some v.
Proof.
  unfold dict_get_default. destruct (dict_get r k); intros; congruence.
Qed.

(** C3 (the claim fails on the code): with [overall_score] given as 7 and
    [overall_max] absent, the score stays 7 although the one entry sums to
    5; only [overall_max] is replaced, by the sum 10. *)
Lemma C3_counterexample :
  exists r,
    dict_get [ (lit "overall_score", JInt 7);
               (lit "rubric_breakdown",
                 JList [ JDict [ (lit "score", JInt 5);
                                 (lit "max_score", JInt 10) ] ]) ]
      (lit "overall_max") = None /\
    _postprocess
      (JDict [ (lit "overall_score", JInt 7);
               (lit "rubric_breakdown",
                 JList [ JDict [ (lit "score", JInt 5);
                                 (lit "max_score", JInt 10) ] ]) ])
      = Ok (JDict r) /\
    score_sum [ JDict [ (lit "score", JInt 5); (lit "max_score", JInt 10) ] ]
      = FFin 5 /\
    dict_get r (lit "overall_score") = Some (JInt 7) /\
    dict_get r (lit "overall_max") = Some (JFloat (FFin 10)).
Proof.
  eexists. split; [reflexivity|]. split; [vm_compute; reflexivity|].
  repeat split; vm_compute; reflexivity.
Qed.

(** C3, amended: for a parsed object in which [overall_score] or
    [overall_max] is absent (or [null]), the normalizer sums [score]
    (default 0) and [max_score] (default 10) over the entries of
    [rubric_breakdown]; afterwards each of the two fields that was absent
    holds its sum, and one that was given keeps the given value.  (Entries
    of which only the score can be read are left aside here.) *)
Theorem C3_absent_totals_become_sums (d : dict) (items : list json) :
  let overall := dict_get_default d (lit "overall_score") JNull in
  let overall_max := dict_get_default d (lit "overall_max") JNull in
  is_none overall = true \/ is_none overall_max = true ->
  iterate (dict_get_default d (lit "rubric_breakdown") (JList [])) = Ok items ->
  Forall (fun item => ~ half_read item) items ->
  exists r,
    _postprocess (JDict d) = Ok (JDict r) /\
    dict_get r (lit "overall_score")
      = Some (if is_none overall then JFloat (score_sum items) else overall) /\
    dict_get r (lit "overall_max")
      = Some (if is_none overall_max then JFloat (max_sum items) else overall_max).
Proof.
  cbv zeta. intros Habs Hit Hall.
  rewrite (postprocess_recompute d items Habs Hit). cbv zeta.
  rewrite (sum_breakdown_sums items Hall). cbn [fst snd].
  match goal with
  | |- exists r, Ok (finish ?d1 ?o ?m) = _ /\ _ =>
      destruct (finish_fields d1 o m) as (r & Hr & Ho & Hm & _)
  end.
  - rewrite dict_get_default_set_other by lit_neq.
    apply dict_get_default_set_same.
  - apply dict_get_default_set_same.
  - exists r. rewrite Hr. split; [reflexivity|].
    split; apply dict_get_of_default; try assumption.
    + destruct (dict_get_default d (lit "overall_score") JNull);
        cbn [is_none]; discriminate.
    + destruct (dict_get_default d (lit "overall_max") JNull);
        cbn [is_none]; discriminate.
Qed.

Lemma C3_witness :
  exists r,
    _postprocess
      (JDict [ (lit "rubric_breakdown",
                 JList [ JDict [ (lit "score", JInt 8) ];
                         JDict [ (lit "score", JFloat (fin (15 # 2)));
                                 (lit "max_score", JInt 20) ];
                         JStr (lit "not an entry") ]) ])
      = Ok (JDict r) /\
    dict_get r (lit "overall_score") = Some (JFloat (fin (31 # 2))) /\
    dict_get r (lit "overall_max") = Some (JFloat (fin (30 # 1))).
Proof.
  destruct (C3_absent_totals_become_sums
              [ (lit "rubric_breakdown",
                  JList [ JDict [ (lit "score", JInt 8) ];
                          JDict [ (lit "score", JFloat (fin (15 # 2)));
                                  (lit "max_score", JInt 20) ];
                          JStr (lit "not an entry") ]) ]
              [ JDict [ (lit "score", JInt 8) ];
                JDict [ (lit "score", JFloat (fin (15 # 2)));
                        (lit "max_score", JInt 20) ];
                JStr (lit "not an entry") ])
    as (r & Hr & Ho & Hm).
  - left; reflexivity.
  - reflexivity.
  - repeat constructor; intros [[s Hs] [e He]]; vm_compute in Hs, He;
      discriminate.
  - exists r. split; [exact Hr|]. split.
    + rewrite Ho. vm_compute. reflexivity.
    + rewrite Hm. vm_compute. reflexivity.
Defined.

(** ** An entry of which only the score can be read *)

(** C6 (the claim fails on the code): the entry has [score] 5 and a
    [max_score] that is not a number.  The score is added before
    [float(max_score)] raises, and [except Exception: pass] keeps it: the
    entry adds 5 to the score total and nothing to the maximum.  An entry
    whose score cannot be read adds nothing to either. *)
Theorem C6_half_read_entry_counts_its_score :
  sum_breakdown [ JDict [ (lit "score", JInt 5);
                          (lit "max_score", JStr (lit "abc")) ] ]
    = (FFin 5, FFin 0) /\
  sum_breakdown [ JDict [ (lit "score", JStr (lit "abc"));
                          (lit "max_score", JInt 10) ] ]
    = (FFin 0, FFin 0) /\
  exists r,
    normalize (lit "{" ++ quoted "rubric_breakdown" ++ lit ":[{"
               ++ quoted "score" ++ lit ":5," ++ quoted "max_score" ++ lit ":"
               ++ quoted "abc" ++ lit "}]}") = Ok (JDict r) /\
    dict_get r (lit "overall_score") = Some (JFloat (FFin 5)) /\
    dict_get r (lit "overall_max") = Some (JFloat (FFin 0)).
Proof.
  split; [vm_compute; reflexivity|]. split; [vm_compute; reflexivity|].
  eexists. split; [vm_compute; reflexivity|].
  split; vm_compute; reflexivity.
Qed.

(** ** Trimming and lowering *)

(** Boolean tests on code points, as arithmetic. *)
Ltac zbool :=
  repeat match goal with
    | H : _ && _ = true |- _ => apply andb_true_iff in H; destruct H
    | H : _ || _ = true |- _ => apply orb_true_iff in H; destruct H
    | H : _ && _ = false |- _ => apply andb_false_iff in H; destruct H
    | H : _ || _ = false |- _ => apply orb_false_iff in H; destruct H
    | H : (_ <=? _) = true |- _ => apply Z.leb_le in H
    | H : (_ <=? _) = false |- _ => apply Z.leb_gt in H
    | H : (_ =? _) = true |- _ => apply Z.eqb_eq in H
    | H : (_ =? _) = false |- _ => apply Z.eqb_neq in H
    end.

Lemma isspace_range (c : Z) : isspace c = true -> 9 <= c <= 12288 /\ ~ 33 <= c <= 132.
Proof. unfold isspace. intros H. zbool; lia. Qed.

Lemma lower_char_space (c : Z) : isspace c = true -> lower_char c = [c].
Proof.
  intros H. unfold lower_char.
  destruct ((65 <=? c) && (c <=? 90)) eqn:E1.
  { apply isspace_range in H. zbool; lia. }
  destruct (c =? 304) eqn:E2.
  { apply Z.eqb_eq in E2; subst c. discriminate. }
  destruct (c =? 8490) eqn:E3.
  { apply Z.eqb_eq in E3; subst c. discriminate. }
  reflexivity.
Qed.

(** The lower-case form of a character that is not white space starts and
    ends with one that is not. *)
Lemma lower_char_nonspace (c : Z) :
  isspace c = false ->
  exists front h l,
    lower_char c = h :: front /\ lower_char c = removelast (h :: front) ++ [l] /\
    isspace h = false /\ isspace l = false.
Proof.
  intros H. unfold lower_char.
  destruct ((65 <=? c) && (c <=? 90)) eqn:E1.
  { exists [], (c + 32), (c + 32). repeat split.
    all: destruct (isspace (c + 32)) eqn:E; auto;
      apply isspace_range in E; zbool; lia. }
  destruct (c =? 304) eqn:E2.
  { exists [775], 105, 775. repeat split. }
  destruct (c =? 8490) eqn:E3.
  { exists [], 107, 107. repeat split. }
  exists [], c, c. repeat split; assumption.
Qed.

Lemma lower_app (x y : str) : lower (x ++ y) = lower x ++ lower y.
Proof. apply flat_map_app. Qed.

Lemma lstrip_lower (s : str) :
  lstrip_by isspace (lower s) = lower (lstrip_by isspace s).
Proof.
  induction s as [|c s IH]; [reflexivity|].
  cbn [lstrip_by]. destruct (isspace c) eqn:E.
  - change (lower (c :: s)) with (lower_char c ++ lower s).
    rewrite (lower_char_space c E). cbn [app lstrip_by]. rewrite E. exact IH.
  - change (lower (c :: s)) with (lower_char c ++ lower s).
    destruct (lower_char_nonspace c E) as (front & h & l & -> & _ & Hh & _).
    cbn [app lstrip_by]. rewrite Hh. reflexivity.
Qed.

Lemma rstrip_by_snoc (p : Z -> bool) (x : str) (c : Z) :
  rstrip_by p (x ++ [c]) = if p c then rstrip_by p x else x ++ [c].
Proof.
  unfold rstrip_by. rewrite rev_app_distr. cbn [rev app lstrip_by].
  destruct (p c); [reflexivity|].
  cbn [rev]. rewrite rev_involutive. reflexivity.
Qed.

Lemma rstrip_lower (s : str) :
  rstrip_by isspace (lower s) = lower (rstrip_by isspace s).
Proof.
  induction s as [|c s IH] using rev_ind; [reflexivity|].
  rewrite lower_app, rstrip_by_snoc.
  change (lower [c]) with (lower_char c ++ []). rewrite app_nil_r.
  destruct (isspace c) eqn:E.
  - rewrite (lower_char_space c E), rstrip_by_snoc, E. exact IH.
  - rewrite lower_app.
    change (lower [c]) with (lower_char c ++ []). rewrite app_nil_r.
    destruct (lower_char_nonspace c E) as (front & h & l & _ & -> & _ & Hl).
    rewrite app_assoc, rstrip_by_snoc, Hl. reflexivity.
Qed.

Lemma strip_lower (s : str) : strip (lower s) = lower (strip s).
Proof.
  unfold strip, strip_by. rewrite lstrip_lower, rstrip_lower. reflexivity.
Qed.

Section Strip.

Variable p : Z -> bool.

Lemma lstrip_by_split (s : str) :
  exists a, s = a ++ lstrip_by p s /\ Forall (fun c => p c = true) a.
Proof.
  induction s as [|c s (a & Ha & Hall)]; [exists []; auto|].
  cbn [lstrip_by]. destruct (p c) eqn:E.
  - exists (c :: a). split; [cbn; congruence | constructor; assumption].
  - exists []. auto.
Qed.

Lemma rstrip_by_split (s : str) :
  exists b, s = rstrip_by p s ++ b /\ Forall (fun c => p c = true) b.
Proof.
  destruct (lstrip_by_split (rev s)) as (a & Ha & Hall).
  exists (rev a). split.
  - unfold rstrip_by. rewrite <- rev_app_distr, <- Ha, rev_involutive.
    reflexivity.
  - apply Forall_rev, Hall.
Qed.

(** What [strip] takes off is made of the characters to strip. *)
Lemma strip_by_split (s : str) :
  exists a b, s = a ++ strip_by p s ++ b /\
              Forall (fun c => p c = true) a /\ Forall (fun c => p c = true) b.
Proof.
  destruct (lstrip_by_split s) as (a & Ha & Halla).
  destruct (rstrip_by_split (lstrip_by p s)) as (b & Hb & Hallb).
  exists a, b. unfold strip_by. rewrite <- Hb. auto.
Qed.

Lemma lstrip_by_padded (a s : str) :
  Forall (fun c => p c = true) a -> lstrip_by p (a ++ s) = lstrip_by p s.
Proof.
  induction 1 as [|c a Hc _ IH]; [reflexivity|].
  cbn [app lstrip_by]. rewrite Hc. exact IH.
Qed.

Lemma rstrip_by_padded (s b : str) :
  Forall (fun c => p c = true) b -> rstrip_by p (s ++ b) = rstrip_by p s.
Proof.
  intros Hb. unfold rstrip_by. rewrite rev_app_distr.
  rewrite lstrip_by_padded by (apply Forall_rev, Hb). reflexivity.
Qed.

(** A text that neither starts nor ends with a character to strip comes
    back from under any padding of such characters. *)
Lemma strip_by_padded (a b core : str) (h l : Z) (mid front : str) :
  core = h :: mid -> core = front ++ [l] -> p h = false -> p l = false ->
  Forall (fun c => p c = true) a -> Forall (fun c => p c = true) b ->
  strip_by p (a ++ core ++ b) = core.
Proof.
  intros Hh Hl Hph Hpl Ha Hb. unfold strip_by.
  rewrite lstrip_by_padded by assumption.
  assert (lstrip_by p (core ++ b) = core ++ b) as ->
    by (rewrite Hh; cbn [app lstrip_by]; rewrite Hph; reflexivity).
  rewrite rstrip_by_padded by assumption.
  rewrite Hl, rstrip_by_snoc, Hpl. reflexivity.
Qed.

End Strip.

(** ** Matching a word up to case *)

Lemma plain_letter_lower (w : Z) : plain_letter w -> lower_char w = [w].
Proof.
  intros (Hr & _ & _). unfold lower_char.
  destruct ((65 <=? w) && (w <=? 90)) eqn:E1; [zbool; lia|].
  destruct (w =? 304) eqn:E2; [zbool; lia|].
  destruct (w =? 8490) eqn:E3; [zbool; lia|]. reflexivity.
Qed.

Lemma plain_letter_capital_lower (w : Z) :
  plain_letter w -> lower_char (w - 32) = [w].
Proof.
  intros (Hr & _ & _). unfold lower_char.
  destruct ((65 <=? w - 32) && (w - 32 <=? 90)) eqn:E1.
  - f_equal; lia.
  - zbool; lia.
Qed.

Lemma matches_word_lower (core word : str) :
  Forall plain_letter word -> matches_word core word -> lower core = word.
Proof.
  intros Hw Hm. induction Hm as [|c w core word Hc _ IH]; [reflexivity|].
  inversion Hw; subst.
  change (lower (c :: core)) with (lower_char c ++ lower core).
  rewrite IH by assumption.
  destruct Hc as [-> | ->].
  - rewrite plain_letter_lower by assumption. reflexivity.
  - rewrite plain_letter_capital_lower by assumption. reflexivity.
Qed.

Lemma lower_matches_word (core word : str) :
  Forall plain_letter word -> lower core = word -> matches_word core word.
Proof.
  revert word. induction core as [|c core IH]; intros word Hw Heq.
  - cbn in Heq. subst word. constructor.
  - change (lower (c :: core)) with (lower_char c ++ lower core) in Heq.
    unfold lower_char in Heq.
    destruct ((65 <=? c) && (c <=? 90)) eqn:E1;
      [| destruct (c =? 304) eqn:E2; [| destruct (c =? 8490) eqn:E3]];
      cbn [app] in Heq; subst word; inversion Hw as [|? ? Hp Hrest]; subst.
    + constructor; [right; lia | apply IH; auto].
    + destruct Hp as (_ & Hp & _). congruence.
    + destruct Hp as (_ & _ & Hp). congruence.
    + constructor; [left; reflexivity | apply IH; auto].
Qed.

Lemma matches_letter_nonspace (c w : Z) :
  plain_letter w -> matches_letter c w -> isspace c = false.
Proof.
  intros (Hr & _ & _) Hm. destruct (isspace c) eqn:E; [|reflexivity].
  apply isspace_range in E. destruct Hm; lia.
Qed.

Lemma matches_word_nonspace (core word : str) :
  Forall plain_letter word -> matches_word core word ->
  Forall (fun c => isspace c = false) core.
Proof.
  intros Hw Hm. induction Hm as [|c w core word Hc _ IH]; constructor;
    inversion Hw; subst; eauto using matches_letter_nonspace.
Qed.

(** Trimmed and lowered, a text is the word exactly when it reads as it. *)
Lemma strip_lower_reads_as (s word : str) :
  Forall plain_letter word -> word <> [] ->
  strip (lower s) = word <-> reads_as (Some s) word.
Proof.
  intros Hw Hne. rewrite strip_lower. split.
  - intros Heq. destruct (strip_by_split isspace s) as (a & b & Hs & Ha & Hb).
    exists a, (strip s), b. repeat split; try assumption.
    + f_equal. exact Hs.
    + apply lower_matches_word; assumption.
  - intros (a & core & b & Hs & Ha & Hb & Hm). inversion Hs; subst s.
    pose proof (matches_word_nonspace core word Hw Hm) as Hns.
    assert (core <> []) as Hcore.
    { intros ->. inversion Hm; subst. congruence. }
    destruct core as [|h mid]; [congruence|].
    destruct (exists_last Hcore) as (front & l & Hl).
    assert (strip (a ++ (h :: mid) ++ b) = h :: mid) as ->.
    { apply (strip_by_padded isspace a b (h :: mid) h l mid front); auto.
      - inversion Hns; assumption.
      - rewrite Hl in Hns. apply Forall_app in Hns. destruct Hns as [_ Hns].
        inversion Hns; assumption. }
    apply matches_word_lower; assumption.
Qed.

Lemma easy_is_plain : Forall plain_letter (lit "easy").
Proof.
  change (lit "easy") with [101; 97; 115; 121].
  repeat constructor; unfold plain_letter; lia.
Qed.

Lemma hard_is_plain : Forall plain_letter (lit "hard").
Proof.
  change (lit "hard") with [104; 97; 114; 100].
  repeat constructor; unfold plain_letter; lia.
Qed.

Lemma reads_as_or_medium (level : option str) (word : str) :
  Forall plain_letter word -> word <> [] ->
  strip (lower (or_medium level)) = word -> word <> lit "medium" ->
  reads_as level word.
Proof.
  intros Hw Hne Heq Hmed.
  destruct level as [[|c s]|]; cbn [or_medium] in Heq.
  - exfalso. apply Hmed. rewrite <- Heq. vm_compute. reflexivity.
  - apply strip_lower_reads_as; assumption.
  - exfalso. apply Hmed. rewrite <- Heq. vm_compute. reflexivity.
Qed.

Lemma or_medium_reads_as (level : option str) (word : str) :
  Forall plain_letter word -> word <> [] ->
  reads_as level word -> strip (lower (or_medium level)) = word.
Proof.
  intros Hw Hne Hr.
  destruct level as [[|c s]|].
  - destruct Hr as (a & core & b & Hs & _ & _ & Hm). inversion Hs as [Hs'].
    symmetry in Hs'. apply app_eq_nil in Hs'. destruct Hs' as [_ Hs'].
    apply app_eq_nil in Hs'. destruct Hs' as [-> _].
    inversion Hm; subst. congruence.
  - cbn [or_medium]. apply strip_lower_reads_as; assumption.
  - destruct Hr as (a & core & b & Hs & _). discriminate.
Qed.

(** ** The strictness switch *)

(** C7 (the claim fails on the code): " easy", with a space in front, is not
    "easy" in any case of its letters, and still selects the easy fragment
    instead of the balanced one. *)
Lemma C7_counterexample :
  ~ matches_word (lit " easy") (lit "easy") /\
  _strictness_instructions (Some (lit " easy")) = easy_instructions /\
  easy_instructions <> balanced_instructions.
Proof.
  split; [|split].
  - intros H. apply Forall2_length in H. discriminate.
  - vm_compute. reflexivity.
  - discriminate.
Qed.

(** C7, amended: the switch is total and selects exactly one fragment: the
    easy one exactly for the levels that read as "easy", the strict one
    exactly for those that read as "hard" -- in any case of the letters and
    with any white space around them --, and the balanced one for every
    other level, the empty string and [None] among them. *)
Theorem C7_strictness_switch (level : option str) :
  (reads_as level (lit "easy") ->
   _strictness_instructions level = easy_instructions) /\
  (reads_as level (lit "hard") ->
   _strictness_instructions level = hard_instructions) /\
  (~ reads_as level (lit "easy") -> ~ reads_as level (lit "hard") ->
   _strictness_instructions level = balanced_instructions) /\
  easy_instructions <> hard_instructions /\
  easy_instructions <> balanced_instructions /\
  hard_instructions <> balanced_instructions.
Proof.
  unfold _strictness_instructions. cbv zeta.
  repeat split; try discriminate.
  - intros H. apply or_medium_reads_as in H;
      [| apply easy_is_plain | discriminate].
    rewrite H. reflexivity.
  - intros H. apply or_medium_reads_as in H;
      [| apply hard_is_plain | discriminate].
    rewrite H. reflexivity.
  - intros Hne Hnh.
    destruct (Str.eqb (strip (lower (or_medium level))) (lit "easy")) eqn:Ee.
    { exfalso. apply Hne. apply eqb_eq in Ee.
      apply reads_as_or_medium; auto using easy_is_plain; discriminate. }
    destruct (Str.eqb (strip (lower (or_medium level))) (lit "hard")) eqn:Eh.
    { exfalso. apply Hnh. apply eqb_eq in Eh.
      apply reads_as_or_medium; auto using hard_is_plain; discriminate. }
    reflexivity.
Qed.

Lemma C7_witness :
  reads_as (Some ([9] ++ lit "HaRd" ++ [32; 10])) (lit "hard") /\
  _strictness_instructions (Some ([9] ++ lit "HaRd" ++ [32; 10]))
    = hard_instructions.
Proof.
  assert (reads_as (Some ([9] ++ lit "HaRd" ++ [32; 10])) (lit "hard")) as H.
  { exists [9], (lit "HaRd"), [32; 10]. repeat split.
    - repeat constructor.
    - repeat constructor.
    - repeat constructor; (left; reflexivity) || (right; reflexivity). }
  split; [exact H|].
  apply (C7_strictness_switch (Some ([9] ++ lit "HaRd" ++ [32; 10]))).
  exact H.
Defined.

(** ** Code fences *)

Lemma fence_all_backticks (n : nat) :
  Forall (fun c => (c =? backtick) = true) (fence n).
Proof. induction n; constructor; auto. Qed.

Lemma nonempty_ends (s : str) (c : Z) :
  hd c s <> c ->
  exists h mid front l, s = h :: mid /\ s = front ++ [l] /\
                        h = hd c s /\ l = last s c.
Proof.
  intros H. destruct s as [|h mid]; [cbn in H; congruence|].
  assert (h :: mid <> []) as Hne by discriminate.
  destruct (exists_last Hne) as (front & l & Hl).
  exists h, mid, front, l. repeat split; auto.
  rewrite Hl. rewrite last_last. reflexivity.
Qed.

(** [strip("`")] takes off every backtick at both ends, however many. *)
Lemma strip_backticks_fenced (n m : nat) (body : str) :
  hd backtick body <> backtick -> last body backtick <> backtick ->
  strip_backticks (fence n ++ body ++ fence m) = body.
Proof.
  intros Hh Hl.
  destruct (nonempty_ends body backtick Hh) as (h & mid & front & l & E1 & E2 & Eh & El).
  unfold strip_backticks.
  apply (strip_by_padded _ (fence n) (fence m) body h l mid front);
    auto using fence_all_backticks.
  - apply Z.eqb_neq. congruence.
  - apply Z.eqb_neq. congruence.
Qed.

Lemma strip_open_fence (n : nat) (body ws : str) :
  (1 <= n)%nat -> hd backtick body <> backtick ->
  isspace (last body 32) = false -> all_space ws ->
  strip (fence n ++ body ++ ws) = fence n ++ body.
Proof.
  intros Hn Hh Hl Hws.
  destruct (nonempty_ends body backtick Hh) as (h & mid & front & l & E1 & E2 & _ & _).
  assert (l = last body 32) as El by (rewrite E2, last_last; reflexivity).
  destruct n as [|n]; [lia|].
  rewrite app_assoc.
  change ((fence (S n) ++ body) ++ ws)
    with ([] ++ (backtick :: fence n ++ body) ++ ws).
  unfold strip.
  apply (strip_by_padded _ [] ws _ backtick l (fence n ++ body)
           (backtick :: fence n ++ front)); auto.
  - rewrite E2. cbn [app]. rewrite <- app_assoc. reflexivity.
  - congruence.
Qed.

Lemma startswith_fence (n : nat) (s : str) :
  (3 <= n)%nat -> startswith (fence n ++ s) (lit "```") = true.
Proof.
  intros Hn. destruct n as [|[|[|n]]]; try lia. reflexivity.
Qed.

(** C10: [strip("`")] removes every backtick at both ends, not one fence
    marker on each side; and a reply that opens with a fence of three or
    more backticks and never closes it is still extracted, whenever what is
    left after the fence and the tag line is valid JSON. *)
Theorem C10_unclosed_fence_is_extracted
  (n m : nat) (body ws : str) (v : json) :
  (3 <= n)%nat ->
  hd backtick body <> backtick -> last body backtick <> backtick ->
  isspace (last body 32) = false -> all_space ws ->
  json_loads (strip (drop_tag body)) = Ok v ->
  strip_backticks (fence n ++ body ++ fence m) = body /\
  _safe_json_parse (fence n ++ body ++ ws) = Ok v.
Proof.
  intros Hn Hh Hl Hsp Hws Hv. split.
  - apply strip_backticks_fenced; assumption.
  - unfold _safe_json_parse. cbv zeta.
    rewrite strip_open_fence by (auto; lia).
    rewrite startswith_fence by assumption.
    unfold unfence. cbv zeta.
    pose proof (strip_backticks_fenced n 0 body Hh Hl) as E.
    change (fence 0) with (@nil Z) in E. rewrite app_nil_r in E.
    rewrite E. exact Hv.
Qed.

Lemma C10_witness :
  _safe_json_parse (lit "````json" ++ [10] ++ lit "{" ++ quoted "overall_score"
                    ++ lit ": 9}" ++ [10; 32])
    = Ok (JDict [ (lit "overall_score", JInt 9) ]).
Proof.
  apply (C10_unclosed_fence_is_extracted 4 0
           (lit "json" ++ [10] ++ lit "{" ++ quoted "overall_score" ++ lit ": 9}")
           [10; 32] (JDict [ (lit "overall_score", JInt 9) ])).
  - lia.
  - vm_compute. discriminate.
  - vm_compute. discriminate.
  - vm_compute. reflexivity.
  - repeat constructor.
  - vm_compute. reflexivity.
Defined.

(** ** A fenced document with a line separator in a string *)

(** C8 (the claim fails on the code): the document has U+2028, which JSON
    allows unescaped, inside a string.  In the fenced reply [splitlines]
    breaks the text there and [join] puts a line feed in its place, which
    JSON does not allow inside a string: the fenced reply is not extracted,
    although the document itself is. *)
Theorem C8_fenced_document_with_line_separator :
  json_loads (lit "{" ++ quoted "final_comment" ++ lit ":"
              ++ [34] ++ lit "Good" ++ [8232] ++ lit "work" ++ [34] ++ lit "}")
    = Ok (JDict [ (lit "final_comment",
                    JStr (lit "Good" ++ [8232] ++ lit "work")) ]) /\
  _safe_json_parse
    (lit "```json" ++ [10]
     ++ lit "{" ++ quoted "final_comment" ++ lit ":"
     ++ [34] ++ lit "Good" ++ [8232] ++ lit "work" ++ [34] ++ lit "}"
     ++ [10] ++ lit "```")
    = Raise JSONDecodeError /\
  drop_tag (lit "json" ++ [10] ++ [34] ++ lit "Good" ++ [8232] ++ lit "work" ++ [34])
    = [34] ++ lit "Good" ++ [10] ++ lit "work" ++ [34].
Proof. vm_compute. repeat split. Qed.

(** * Further properties of the normalizer *)

(** ** When [_postprocess] returns, and what it raises *)

Lemma postprocess_keep (d : dict) :
  is_none (dict_get_default d (lit "overall_score") JNull) = false ->
  is_none (dict_get_default d (lit "overall_max") JNull) = false ->
  _postprocess (JDict d) =
    Ok (finish d (dict_get_default d (lit "overall_score") JNull)
               (dict_get_default d (lit "overall_max") JNull)).
Proof.
  intros Ho Hm. unfold _postprocess. cbv zeta. rewrite Ho, Hm. reflexivity.
Qed.

Lemma iterate_raises_type_error (x : json) (e : exn) :
  iterate x = Raise e -> e = TypeError.
Proof. destruct x; cbn [iterate]; intros H; inversion H; reflexivity. Qed.

(** X1: [_postprocess] returns exactly on a dict in which either both totals
    are there (and not [null]) or [rubric_breakdown] can be iterated (a
    list, a dict, a string, or absent). *)
Theorem X1_postprocess_returns_iff (x : json) :
  (exists y, _postprocess x = Ok y) <->
  exists d, x = JDict d /\
    ((is_none (dict_get_default d (lit "overall_score") JNull) = false /\
      is_none (dict_get_default d (lit "overall_max") JNull) = false)
     \/ exists items,
          iterate (dict_get_default d (lit "rubric_breakdown") (JList []))
            = Ok items).
Proof.
  split.
  - intros [y H]. destruct (postprocess_only_objects x y H) as [d ->].
    exists d. split; [reflexivity|].
    destruct (postprocess_cases d y H) as [(Ho & Hm & _) | (items & _ & Hi & _)].
    + left; auto.
    + right; eauto.
  - intros (d & -> & [[Ho Hm] | [items Hi]]).
    + rewrite (postprocess_keep d Ho Hm). eauto.
    + destruct (is_none (dict_get_default d (lit "overall_score") JNull)) eqn:Ho.
      { rewrite (postprocess_recompute d items (or_introl Ho) Hi). eauto. }
      destruct (is_none (dict_get_default d (lit "overall_max") JNull)) eqn:Hm.
      { rewrite (postprocess_recompute d items (or_intror Hm) Hi). eauto. }
      rewrite (postprocess_keep d Ho Hm). eauto.
Qed.

Lemma postprocess_raises (x : json) (e : exn) :
  _postprocess x = Raise e -> e = AttributeError \/ e = TypeError.
Proof.
  destruct x; cbn [_postprocess]; try (intros H; inversion H; auto; fail).
  cbv zeta.
  destruct (is_none (dict_get_default items (lit "overall_score") JNull)
            || is_none (dict_get_default items (lit "overall_max") JNull)).
  - destruct (iterate _) as [l|e'] eqn:Hi; cbn [bind].
    + destruct (sum_breakdown l). cbn [bind]. discriminate.
    + intros H; inversion H; subst. right.
      apply (iterate_raises_type_error _ _ Hi).
  - cbn [bind]. discriminate.
Qed.

(** X2: whatever the reply is, the only exceptions that leave the normalizer
    are [AttributeError] and [TypeError]: a JSON decoding error never does. *)
Theorem X2_normalize_raises_only_shape_errors (raw : str) (e : exn) :
  normalize raw = Raise e -> e = AttributeError \/ e = TypeError.
Proof. unfold normalize. apply postprocess_raises. Qed.

Lemma X2_witness :
  normalize (lit "42") = Raise AttributeError /\
  (AttributeError = AttributeError \/ AttributeError = TypeError).
Proof.
  assert (normalize (lit "42") = Raise AttributeError) as H
    by (vm_compute; reflexivity).
  split; [exact H|].
  exact (X2_normalize_raises_only_shape_errors (lit "42") AttributeError H).
Defined.

(** ** The shape of every result *)

Lemma dict_set_keys (d : dict) (k : str) (v : json) :
  map fst (dict_set d k v) =
    map fst d ++ match dict_get d k with None => [k] | Some _ => [] end.
Proof.
  induction d as [|[k' v'] d IH]; cbn [dict_set dict_get map fst app].
  - reflexivity.
  - destruct (Str.eqb k' k) eqn:E; cbn [map fst].
    + rewrite app_nil_r. reflexivity.
    + rewrite IH. reflexivity.
Qed.

Lemma dict_set_same_value (d : dict) (k : str) (v : json) :
  dict_get d k = Some v -> dict_set d k v = d.
Proof.
  induction d as [|[k' v'] d IH]; cbn [dict_set dict_get]; [discriminate|].
  destruct (Str.eqb k' k); intros H.
  - inversion H; reflexivity.
  - rewrite IH by assumption. reflexivity.
Qed.

Lemma is_none_false (x : json) : is_none x = false <-> x <> JNull.
Proof. destruct x; cbn [is_none]; split; congruence. Qed.

Lemma default_letter_grade_nonempty (pct : pyfloat) :
  truthy (JStr (_default_letter_grade pct)) = true.
Proof.
  unfold _default_letter_grade.
  repeat match goal with
         | |- context [if ?b then _ else _] => destruct b; [reflexivity|]
         end.
  reflexivity.
Qed.

(** Every result is [finish d1 o m] for totals [o] and [m] that are not
    [None] and a dict [d1] that holds them and differs from the input in
    these two keys only. *)
Lemma postprocess_shape (x y : json) :
  _postprocess x = Ok y ->
  exists d d1 o m,
    x = JDict d /\ y = finish d1 o m /\
    dict_get d1 (lit "overall_score") = Some o /\ o <> JNull /\
    dict_get d1 (lit "overall_max") = Some m /\ m <> JNull /\
    (forall k, k <> lit "overall_score" -> k <> lit "overall_max" ->
       dict_get d1 k = dict_get d k) /\
    map fst d1 =
      map fst d
      ++ match dict_get d (lit "overall_score") with None => [lit "overall_score"] | Some _ => [] end
      ++ match dict_get d (lit "overall_max") with None => [lit "overall_max"] | Some _ => [] end.
Proof.
  intros H. destruct (postprocess_only_objects x y H) as [d ->].
  destruct (postprocess_cases d y H)
    as [(Ho & Hm & Hy) | (items & Habs & _ & Hy)]; cbv zeta in Hy.
  - apply is_none_false in Ho, Hm.
    exists d, d, (dict_get_default d (lit "overall_score") JNull),
      (dict_get_default d (lit "overall_max") JNull).
    pose proof (dict_get_of_default d _ _ eq_refl Ho) as Go.
    pose proof (dict_get_of_default d _ _ eq_refl Hm) as Gm.
    repeat split; auto.
    rewrite Go, Gm, !app_nil_r. reflexivity.
  - match type of Hy with
    | y = finish (dict_set (dict_set d _ ?o) _ ?m) _ _ =>
        set (o' := o) in *; set (m' := m) in *
    end.
    assert (o' <> JNull) as No.
    { subst o'.
      destruct (is_none (dict_get_default d (lit "overall_score") JNull))
        eqn:E; [discriminate|].
      apply is_none_false, E. }
    assert (m' <> JNull) as Nm.
    { subst m'.
      destruct (is_none (dict_get_default d (lit "overall_max") JNull))
        eqn:E; [discriminate|].
      apply is_none_false, E. }
    exists d, (dict_set (dict_set d (lit "overall_score") o')
                 (lit "overall_max") m'), o', m'.
    repeat split; auto.
    + rewrite dict_get_set_other by lit_neq. apply dict_get_set_same.
    + apply dict_get_set_same.
    + intros k Hk1 Hk2. rewrite !dict_get_set_other by congruence.
      reflexivity.
    + rewrite !dict_set_keys, <- app_assoc.
      rewrite dict_get_set_other by lit_neq. reflexivity.
Qed.

(** X3: [_postprocess] leaves every key other than [overall_score],
    [overall_max], [letter_grade] and [percent] as it found it: present with
    the same value, or absent. *)
Theorem X3_postprocess_keeps_other_keys (d r : dict) (k : str) :
  _postprocess (JDict d) = Ok (JDict r) ->
  k <> lit "overall_score" -> k <> lit "overall_max" ->
  k <> lit "letter_grade" -> k <> lit "percent" ->
  dict_get r k = dict_get d k.
Proof.
  intros H K1 K2 K3 K4.
  destruct (postprocess_shape _ _ H)
    as (d0 & d1 & o & m & Hd & Hy & _ & _ & _ & _ & Hk & _).
  inversion Hd; subst d0. unfold finish in Hy. cbv zeta in Hy.
  inversion Hy; subst r.
  rewrite dict_get_set_other by congruence.
  destruct (negb _).
  - rewrite dict_get_set_other by congruence. apply Hk; assumption.
  - apply Hk; assumption.
Qed.

Lemma X3_witness :
  exists r,
    _postprocess (JDict [ (lit "final_comment", JStr (lit "ok")) ])
      = Ok (JDict r) /\
    dict_get r (lit "final_comment") = Some (JStr (lit "ok")).
Proof.
  assert (exists r,
            _postprocess (JDict [ (lit "final_comment", JStr (lit "ok")) ])
              = Ok (JDict r)) as [r Hr]
    by (eexists; vm_compute; reflexivity).
  exists r. split; [exact Hr|].
  rewrite (X3_postprocess_keeps_other_keys _ r (lit "final_comment") Hr)
    by (apply eqb_neq; vm_compute; reflexivity).
  vm_compute; reflexivity.
Defined.

(** X4: the keys of the input keep their places in the result, and those
    of the four fields that the input lacks come after them, in the order
    [overall_score], [overall_max], [letter_grade], [percent]. *)
Theorem X4_postprocess_key_order (d r : dict) :
  _postprocess (JDict d) = Ok (JDict r) ->
  map fst r =
    map fst d
    ++ filter (fun k => match dict_get d k with None => true | Some _ => false end)
         [ lit "overall_score"; lit "overall_max";
           lit "letter_grade"; lit "percent" ].
Proof.
  intros H.
  destruct (postprocess_shape _ _ H)
    as (d0 & d1 & o & m & Hd & Hy & _ & _ & _ & _ & Hk & Hkeys).
  inversion Hd; subst d0. unfold finish in Hy. cbv zeta in Hy.
  inversion Hy; subst r. clear Hy H Hd.
  assert (dict_get d1 (lit "letter_grade") = dict_get d (lit "letter_grade"))
    as Hl by (apply Hk; lit_neq).
  assert (dict_get d1 (lit "percent") = dict_get d (lit "percent"))
    as Hp by (apply Hk; lit_neq).
  rewrite dict_set_keys.
  assert (map fst
            (if negb (truthy (dict_get_default d1 (lit "letter_grade") JNull))
             then dict_set d1 (lit "letter_grade")
                    (JStr (_default_letter_grade (percent_or_zero o m)))
             else d1)
          = map fst d1
            ++ match dict_get d (lit "letter_grade") with
               | None => [lit "letter_grade"] | Some _ => [] end) as E1.
  { unfold dict_get_default. rewrite Hl.
    destruct (dict_get d (lit "letter_grade")) as [g|] eqn:Eg.
    - destruct (negb (truthy g)).
      + rewrite dict_set_keys, Hl, ?Eg. reflexivity.
      + rewrite app_nil_r. reflexivity.
    - cbn [truthy negb]. rewrite dict_set_keys, Hl, ?Eg. reflexivity. }
  assert (dict_get
            (if negb (truthy (dict_get_default d1 (lit "letter_grade") JNull))
             then dict_set d1 (lit "letter_grade")
                    (JStr (_default_letter_grade (percent_or_zero o m)))
             else d1) (lit "percent")
          = dict_get d (lit "percent")) as E2.
  { destruct (negb _); [rewrite dict_get_set_other by lit_neq|]; exact Hp. }
  apply (eq_trans
           (f_equal2 (@app str) E1
              (f_equal (fun x : option json =>
                          match x with
                          | Some _ => []
                          | None => [lit "percent"]
                          end) E2))).
  rewrite Hkeys. cbn [filter].
  rewrite <- !app_assoc.
  destruct (dict_get d (lit "overall_score")),
    (dict_get d (lit "overall_max")),
    (dict_get d (lit "letter_grade")),
    (dict_get d (lit "percent")); reflexivity.
Qed.

Lemma X4_witness :
  exists r,
    _postprocess (JDict [ (lit "overall_max", JInt 10);
                          (lit "overall_score", JInt 9) ]) = Ok (JDict r) /\
    map fst r = [ lit "overall_max"; lit "overall_score";
                  lit "letter_grade"; lit "percent" ].
Proof.
  assert (exists r,
            _postprocess (JDict [ (lit "overall_max", JInt 10);
                                  (lit "overall_score", JInt 9) ])
              = Ok (JDict r)) as [r Hr]
    by (eexists; vm_compute; reflexivity).
  exists r. split; [exact Hr|].
  rewrite (X4_postprocess_key_order _ r Hr).
  vm_compute; reflexivity.
Defined.

(** X5: every result of [_postprocess] is a dict with the four fields:
    [overall_score] and [overall_max] that are not [None], a [letter_grade]
    that is truthy, and a float [percent]. *)
Theorem X5_postprocess_result_is_complete (x y : json) :
  _postprocess x = Ok y ->
  exists r o m g p,
    y = JDict r /\
    dict_get r (lit "overall_score") = Some o /\ o <> JNull /\
    dict_get r (lit "overall_max") = Some m /\ m <> JNull /\
    dict_get r (lit "letter_grade") = Some g /\ truthy g = true /\
    dict_get r (lit "percent") = Some (JFloat p).
Proof.
  intros H.
  destruct (postprocess_shape _ _ H)
    as (d & d1 & o & m & _ & Hy & Ho & No & Hm & Nm & _ & _).
  destruct (finish_fields d1 o m) as (r & Hr & Ro & Rm & Rp & Lf & Lt).
  { unfold dict_get_default. rewrite Ho. reflexivity. }
  { unfold dict_get_default. rewrite Hm. reflexivity. }
  destruct (truthy (dict_get_default d1 (lit "letter_grade") JNull)) eqn:El.
  - specialize (Lt eq_refl).
    unfold dict_get_default in El.
    destruct (dict_get d1 (lit "letter_grade")) as [g|] eqn:Eg;
      [|discriminate El].
    exists r, o, m, g, (round1 (percent_or_zero o m)).
    rewrite Hy, Hr.
    repeat split; auto using dict_get_of_default.
  - specialize (Lf eq_refl).
    exists r, o, m, (JStr (_default_letter_grade (percent_or_zero o m))),
      (round1 (percent_or_zero o m)).
    rewrite Hy, Hr.
    repeat split; auto using dict_get_of_default, default_letter_grade_nonempty.
Qed.

Lemma X5_witness :
  exists r o m g p,
    normalize (lit "{}") = Ok (JDict r) /\
    dict_get r (lit "overall_score") = Some o /\ o <> JNull /\
    dict_get r (lit "overall_max") = Some m /\ m <> JNull /\
    dict_get r (lit "letter_grade") = Some g /\ truthy g = true /\
    dict_get r (lit "percent") = Some (JFloat p).
Proof.
  assert (exists y, _postprocess (JDict []) = Ok y) as [y Hy]
    by (eexists; vm_compute; reflexivity).
  pose proof (X5_postprocess_result_is_complete (JDict []) y Hy)
    as (r & o & m & g & p & Hr & Hrest).
  exists r, o, m, g, p. split; [|exact Hrest].
  rewrite <- Hr, <- Hy. vm_compute; reflexivity.
Defined.

(** X6: [_postprocess] is idempotent: applied to one of its own results it
    returns that result unchanged. *)
Theorem X6_postprocess_idempotent (x y : json) :
  _postprocess x = Ok y -> _postprocess y = Ok y.
Proof.
  intros H.
  destruct (postprocess_shape _ _ H)
    as (d & d1 & o & m & _ & Hy & Ho & No & Hm & Nm & _ & _).
  destruct (finish_fields d1 o m) as (r & Hr & Ro & Rm & Rp & Lf & Lt).
  { unfold dict_get_default. rewrite Ho. reflexivity. }
  { unfold dict_get_default. rewrite Hm. reflexivity. }
  rewrite Hy, Hr.
  rewrite (postprocess_complete_object r o m);
    auto using dict_get_of_default.
  - rewrite (dict_set_same_value r _ _ Rp). reflexivity.
  - destruct (truthy (dict_get_default d1 (lit "letter_grade") JNull)) eqn:El.
    + unfold dict_get_default. rewrite (Lt eq_refl). exact El.
    + unfold dict_get_default. rewrite (Lf eq_refl).
      apply default_letter_grade_nonempty.
Qed.

Lemma X6_witness :
  exists y,
    normalize (lit "{}") = Ok y /\ _postprocess y = Ok y.
Proof.
  assert (exists y, normalize (lit "{}") = Ok y) as [y Hy]
    by (eexists; vm_compute; reflexivity).
  exists y. split; [exact Hy|].
  exact (X6_postprocess_idempotent (JDict []) y Hy).
Defined.

Lemma dict_get_default_some (d : dict) (k : str) (v x : json) :
  dict_get d k = Some v -> dict_get_default d k x = v.
Proof. unfold dict_get_default. intros ->. reflexivity. Qed.

(** Every result is [finish d1 o m] where the totals and the grade that
    the input gives are still those of [d1]. *)
Lemma postprocess_given (d : dict) (y : json) :
  _postprocess (JDict d) = Ok y ->
  exists d1 o m,
    y = finish d1 o m /\
    dict_get_default d1 (lit "overall_score") JNull = o /\
    dict_get_default d1 (lit "overall_max") JNull = m /\
    dict_get d1 (lit "letter_grade") = dict_get d (lit "letter_grade") /\
    (forall v, dict_get d (lit "overall_score") = Some v -> v <> JNull -> o = v) /\
    (forall v, dict_get d (lit "overall_max") = Some v -> v <> JNull -> m = v).
Proof.
  intros H.
  destruct (postprocess_cases d y H)
    as [(_ & _ & Hy) | (items & _ & _ & Hy)]; cbv zeta in Hy.
  - exists d, (dict_get_default d (lit "overall_score") JNull),
      (dict_get_default d (lit "overall_max") JNull).
    repeat split; auto.
    + intros v Hv _. apply dict_get_default_some, Hv.
    + intros v Hv _. apply dict_get_default_some, Hv.
  - match type of Hy with
    | y = finish ?d1 ?o ?m => exists d1, o, m
    end.
    split; [exact Hy|]. split; [|split; [|split; [|split]]].
    + rewrite dict_get_default_set_other by lit_neq.
      apply dict_get_default_set_same.
    + apply dict_get_default_set_same.
    + rewrite !dict_get_set_other by lit_neq. reflexivity.
    + intros v Hv Nv. rewrite (dict_get_default_some d _ v JNull Hv).
      apply is_none_false in Nv. rewrite Nv. reflexivity.
    + intros v Hv Nv. rewrite (dict_get_default_some d _ v JNull Hv).
      apply is_none_false in Nv. rewrite Nv. reflexivity.
Qed.

(** X7: what the reply already settles is never replaced: an
    [overall_score] or [overall_max] that is not [None] and a truthy
    [letter_grade] keep their values in every result, also when the other
    total had to be summed from the breakdown. *)
Theorem X7_postprocess_keeps_given_fields (d r : dict) (v : json) :
  _postprocess (JDict d) = Ok (JDict r) ->
  (dict_get d (lit "overall_score") = Some v -> v <> JNull ->
   dict_get r (lit "overall_score") = Some v) /\
  (dict_get d (lit "overall_max") = Some v -> v <> JNull ->
   dict_get r (lit "overall_max") = Some v) /\
  (dict_get d (lit "letter_grade") = Some v -> truthy v = true ->
   dict_get r (lit "letter_grade") = Some v).
Proof.
  intros H.
  destruct (postprocess_given d _ H)
    as (d1 & o & m & Hy & Ho & Hm & Hl & Ko & Km).
  destruct (finish_fields d1 o m Ho Hm) as (r' & Hr & Ro & Rm & _ & _ & Lt).
  rewrite Hr in Hy. inversion Hy; subst r'. clear Hy Hr.
  repeat split.
  - intros Hv Nv. rewrite (Ko v Hv Nv) in Ro.
    apply (dict_get_of_default _ _ _ Ro Nv).
  - intros Hv Nv. rewrite (Km v Hv Nv) in Rm.
    apply (dict_get_of_default _ _ _ Rm Nv).
  - intros Hv Tv. rewrite Lt, Hl; [exact Hv|].
    unfold dict_get_default. rewrite Hl, Hv. exact Tv.
Qed.

Lemma X7_witness :
  exists r,
    _postprocess (JDict [ (lit "overall_score", JInt 7);
                          (lit "letter_grade", JStr (lit "B")) ])
      = Ok (JDict r) /\
    dict_get r (lit "overall_score") = Some (JInt 7) /\
    dict_get r (lit "letter_grade") = Some (JStr (lit "B")).
Proof.
  assert (exists r,
            _postprocess (JDict [ (lit "overall_score", JInt 7);
                                  (lit "letter_grade", JStr (lit "B")) ])
              = Ok (JDict r)) as [r Hr]
    by (eexists; vm_compute; reflexivity).
  exists r. split; [exact Hr|].
  pose proof (X7_postprocess_keeps_given_fields _ r (JInt 7) Hr)
    as (Ho & _ & _).
  pose proof (X7_postprocess_keeps_given_fields _ r (JStr (lit "B")) Hr)
    as (_ & _ & Hl).
  split.
  - apply Ho; [vm_compute; reflexivity | discriminate].
  - apply Hl; vm_compute; reflexivity.
Defined.

(** ** Entries of the breakdown that are not objects *)

Lemma add_item_not_dict (totals : pyfloat * pyfloat) (item : json) :
  (forall d, item <> JDict d) -> add_item totals item = totals.
Proof.
  intros H. destruct totals as [t tm].
  destruct item; try reflexivity. destruct (H items eq_refl).
Qed.

(** X8: the loop skips every entry of [rubric_breakdown] that is not a
    dict, whatever else the list holds: the totals are those of the dicts
    alone.  So a breakdown given as a string or as a dict, which is walked
    by characters or by keys, sums to 0.0 out of 0.0. *)
Theorem X8_sum_breakdown_skips_non_dicts (items : list json) (s : str) (kv : dict) :
  sum_breakdown items
    = sum_breakdown
        (filter (fun item => match item with JDict _ => true | _ => false end)
           items) /\
  (exists chars, iterate (JStr s) = Ok chars /\
                 sum_breakdown chars = (Float.zero, Float.zero)) /\
  (exists keys, iterate (JDict kv) = Ok keys /\
                sum_breakdown keys = (Float.zero, Float.zero)).
Proof.
  assert (forall l t,
            fold_left add_item l t
            = fold_left add_item
                (filter (fun item => match item with JDict _ => true | _ => false end) l)
                t) as Hskip.
  { induction l as [|item l IH]; intros t; [reflexivity|].
    cbn [fold_left filter]. destruct item;
      try (rewrite add_item_not_dict by discriminate; apply IH).
    cbn [fold_left]. apply IH. }
  assert (forall (A : Type) (f : A -> str) (l : list A) t,
            fold_left add_item (map (fun a => JStr (f a)) l) t = t) as Hstr.
  { intros A f l. induction l as [|a l IH]; intros t; [reflexivity|].
    cbn [map fold_left]. rewrite add_item_not_dict by discriminate. apply IH. }
  split; [apply Hskip|]. split.
  - eexists. split; [reflexivity|]. apply (Hstr Z (fun c => [c])).
  - eexists. split; [reflexivity|]. apply (Hstr (str * json)%type fst).
Qed.

(** ** The bands of the letter grade *)

Lemma geb_true (q : Q) (n : Z) :
  geb (FFin q) n = true -> (inject_Z n <= q)%Q.
Proof.
  cbn [geb]. intros H. apply Z.leb_le in H.
  unfold Qle. cbn [Qnum Qden inject_Z]. lia.
Qed.

Lemma geb_false (q : Q) (n : Z) :
  geb (FFin q) n = false -> (q < inject_Z n)%Q.
Proof.
  cbn [geb]. intros H. apply Z.leb_gt in H.
  unfold Qlt. cbn [Qnum Qden inject_Z]. lia.
Qed.

Ltac grade_band :=
  split; intros ?H;
  [ first [ exfalso; vm_compute in H; discriminate H | lra ]
  | first [ reflexivity | exfalso; lra ] ].

(** X9: the grade of a finite percentage, given as the rational number it
    is exactly, is decided by the band it lies in: each grade is returned on
    its band and nowhere else.  A percentage that is [nan] or the negative
    infinity gets "F", the positive infinity "A+". *)
Theorem X9_default_letter_grade_bands (q : Q) :
  let g := _default_letter_grade (FFin q) in
  ((g = lit "A+" <-> 97 <= q) /\
   (g = lit "A" <-> 93 <= q /\ q < 97) /\
   (g = lit "A-" <-> 90 <= q /\ q < 93) /\
   (g = lit "B+" <-> 87 <= q /\ q < 90) /\
   (g = lit "B" <-> 83 <= q /\ q < 87) /\
   (g = lit "B-" <-> 80 <= q /\ q < 83) /\
   (g = lit "C+" <-> 77 <= q /\ q < 80) /\
   (g = lit "C" <-> 73 <= q /\ q < 77) /\
   (g = lit "C-" <-> 70 <= q /\ q < 73) /\
   (g = lit "D+" <-> 67 <= q /\ q < 70) /\
   (g = lit "D" <-> 63 <= q /\ q < 67) /\
   (g = lit "D-" <-> 60 <= q /\ q < 63) /\
   (g = lit "F" <-> q < 60))%Q /\
  _default_letter_grade FNan = lit "F" /\
  _default_letter_grade (FInf false) = lit "A+" /\
  _default_letter_grade (FInf true) = lit "F".
Proof.
  cbv zeta. split; [|repeat split; reflexivity].
  unfold _default_letter_grade.
  repeat match goal with
         | |- context [if geb (FFin q) ?n then _ else _] =>
             let E := fresh "E" in
             destruct (geb (FFin q) n) eqn:E;
             [ apply geb_true in E; unfold inject_Z in E
             | apply geb_false in E; unfold inject_Z in E ]
         end.
  all: repeat match goal with
              | |- _ /\ _ => split
              end.
  all: grade_band.
Qed.

(** ** White space around the reply *)

Lemma strip_by_pad (p : Z -> bool) (a s b : str) :
  Forall (fun c => p c = true) a -> Forall (fun c => p c = true) b ->
  strip_by p (a ++ s ++ b) = strip_by p s.
Proof.
  intros Ha Hb. unfold strip_by. rewrite lstrip_by_padded by assumption.
  induction s as [|c s IH]; cbn [app lstrip_by].
  - rewrite <- (app_nil_r b), lstrip_by_padded by assumption. reflexivity.
  - destruct (p c) eqn:E; [exact IH|].
    change (c :: s ++ b) with ((c :: s) ++ b).
    apply rstrip_by_padded, Hb.
Qed.

Lemma strip_by_idempotent (p : Z -> bool) (s : str) :
  strip_by p (strip_by p s) = strip_by p s.
Proof.
  destruct (strip_by_split p s) as (a & b & E & Ha & Hb).
  rewrite E at 2. rewrite strip_by_pad by assumption. reflexivity.
Qed.

(** X10: white space around the reply changes nothing: the parser and the
    whole normalizer return for the padded reply what they return for the
    reply, result or exception. *)
Theorem X10_surrounding_white_space_is_ignored (before raw after : str) :
  all_space before -> all_space after ->
  _safe_json_parse (before ++ raw ++ after) = _safe_json_parse raw /\
  normalize (before ++ raw ++ after) = normalize raw.
Proof.
  intros Ha Hb.
  assert (strip (before ++ raw ++ after) = strip raw) as E
    by (apply strip_by_pad; assumption).
  unfold normalize, fallback, _safe_json_parse. rewrite E. auto.
Qed.

Lemma X10_witness :
  all_space [10; 32] /\ all_space [13; 10] /\
  _safe_json_parse ([10; 32] ++ lit "[1]" ++ [13; 10])
    = _safe_json_parse (lit "[1]").
Proof.
  assert (all_space [10; 32]) as Ha by (repeat constructor).
  assert (all_space [13; 10]) as Hb by (repeat constructor).
  split; [exact Ha|]. split; [exact Hb|].
  exact (proj1 (X10_surrounding_white_space_is_ignored
                  [10; 32] (lit "[1]") [13; 10] Ha Hb)).
Defined.

(** X11: a reply that, white space apart, does not open with three
    backticks is handed to the JSON parser whole, trimmed once: backticks
    and tag lines inside it are left alone. *)
Theorem X11_unfenced_reply_is_parsed_whole (text : str) :
  startswith (strip text) (lit "```") = false ->
  _safe_json_parse text = json_loads (strip text).
Proof.
  intros H. unfold _safe_json_parse. cbv zeta. rewrite H.
  unfold strip. rewrite strip_by_idempotent. reflexivity.
Qed.

Lemma X11_witness :
  _safe_json_parse (lit " `` [1] ") = json_loads (lit "`` [1]").
Proof.
  rewrite (X11_unfenced_reply_is_parsed_whole (lit " `` [1] "))
    by (vm_compute; reflexivity).
  vm_compute; reflexivity.
Defined.

(** ** Fenced replies *)

Lemma splitlines_aux_first_line (first rest cur : str) :
  one_line first ->
  splitlines_aux cur (first ++ 10 :: rest)
    = (rev cur ++ first) :: splitlines_aux [] rest.
Proof.
  intros H. revert cur.
  induction H as [|c first Hc _ IH]; intros cur.
  - rewrite app_nil_r. reflexivity.
  - cbn [app splitlines_aux]. rewrite Hc, IH.
    cbn [rev]. rewrite <- app_assoc. reflexivity.
Qed.

Lemma splitlines_aux_nonempty (s cur : str) :
  lf_only s -> cur <> [] -> splitlines_aux cur s <> [].
Proof.
  intros H. revert cur.
  induction H as [|c s Hc _ IH]; intros cur Hcur.
  - destruct cur; [congruence | discriminate].
  - cbn [splitlines_aux]. destruct (is_linebreak c) eqn:E.
    + rewrite (Hc eq_refl). discriminate.
    + apply IH. discriminate.
Qed.

Lemma splitlines_aux_nil (s : str) :
  lf_only s -> splitlines_aux [] s = [] -> s = [].
Proof.
  intros H. destruct H as [|c s Hc Hs]; [reflexivity|].
  cbn [splitlines_aux]. destruct (is_linebreak c) eqn:E.
  - rewrite (Hc eq_refl). discriminate.
  - intros F. destruct (splitlines_aux_nonempty s [c] Hs); [discriminate|exact F].
Qed.

(** Joining the lines of a text that only has line feeds gives the text
    back, up to one line feed at its end. *)
Lemma join_splitlines_aux (s cur : str) :
  lf_only s ->
  exists tail, rev cur ++ s = join [10] (splitlines_aux cur s) ++ tail /\
               (tail = [] \/ tail = [10]).
Proof.
  intros H. revert cur.
  induction H as [|c s Hc Hs IH]; intros cur.
  - exists []. split; [|auto]. cbn [splitlines_aux].
    destruct cur; [reflexivity|]. cbn [join]. reflexivity.
  - cbn [splitlines_aux]. destruct (is_linebreak c) eqn:E.
    + rewrite (Hc eq_refl).
      change (match 10 with 13 => _ | _ => ?b end) with b.
      destruct (splitlines_aux [] s) as [|l ls] eqn:El.
      * apply (splitlines_aux_nil s Hs) in El. subst s.
        exists [10]. split; [reflexivity | auto].
      * destruct (IH []) as (tail & Et & Ht). rewrite El in Et.
        exists tail. split; [|exact Ht].
        cbn [rev app] in Et. rewrite Et.
        change (join [10] (rev cur :: l :: ls))
          with (rev cur ++ [10] ++ join [10] (l :: ls)).
        rewrite <- !app_assoc. reflexivity.
    + destruct (IH (c :: cur)) as (tail & Et & Ht).
      exists tail. split; [|exact Ht].
      rewrite <- Et. cbn [rev]. rewrite <- app_assoc. reflexivity.
Qed.

Lemma strip_join_splitlines (s : str) :
  lf_only s -> strip (join [10] (splitlines s)) = strip s.
Proof.
  intros H. destruct (join_splitlines_aux s [] H) as (tail & Et & Ht).
  cbn [rev app] in Et. unfold splitlines, strip.
  rewrite Et at 2. symmetry.
  apply (strip_by_pad isspace [] (join [10] (splitlines_aux [] s)) tail).
  - constructor.
  - destruct Ht as [-> | ->]; repeat constructor.
Qed.

Lemma rstrip_by_cons (p : Z -> bool) (c : Z) (s : str) :
  p c = false -> exists s', rstrip_by p (c :: s) = c :: s'.
Proof.
  intros Hc. destruct (rstrip_by_split p (c :: s)) as (b & E & Hb).
  destruct (rstrip_by p (c :: s)) as [|c' s'].
  - cbn [app] in E. subst b. inversion Hb; congruence.
  - inversion E. eauto.
Qed.

(** A line that reads as one of the two tags does not start with a
    backtick. *)
Lemma tag_line_head (first : str) :
  strip (lower first) = lit "json" \/ strip (lower first) = lit "javascript" ->
  hd backtick first <> backtick.
Proof.
  intros H. destruct first as [|c first].
  - destruct H as [H | H]; vm_compute in H; discriminate H.
  - cbn [hd]. intros ->.
    change (lower (backtick :: first)) with (backtick :: lower first) in H.
    unfold strip, strip_by in H.
    change (lstrip_by isspace (backtick :: lower first))
      with (backtick :: lower first) in H.
    destruct (rstrip_by_cons isspace backtick (lower first) eq_refl) as [s' E].
    rewrite E in H.
    destruct H as [H | H]; vm_compute in H; discriminate H.
Qed.

Lemma last_after_newline (first rest : str) :
  last (first ++ 10 :: rest) backtick = last rest 10.
Proof.
  induction first as [|c first IH].
  - cbn [app]. revert rest. intros rest.
    assert (forall (l : str) (x y : Z), l <> [] -> last l x = last l y) as Hd.
    { induction l as [|a l IHl]; intros x y Hne; [congruence|].
      destruct l as [|b l]; [reflexivity|].
      change (last (a :: b :: l) x) with (last (b :: l) x).
      change (last (a :: b :: l) y) with (last (b :: l) y).
      apply IHl. discriminate. }
    destruct rest as [|r rest]; [reflexivity|].
    change (last (10 :: r :: rest) backtick) with (last (r :: rest) backtick).
    apply Hd. discriminate.
  - change (last ((c :: first) ++ 10 :: rest) backtick)
      with (last (c :: (first ++ 10 :: rest)) backtick).
    destruct (first ++ 10 :: rest) as [|x l] eqn:E.
    + destruct first; discriminate E.
    + exact IH.
Qed.

Lemma strip_closed_fence (n m : nat) (body : str) :
  (1 <= n)%nat -> (1 <= m)%nat ->
  strip (fence n ++ body ++ fence m) = fence n ++ body ++ fence m.
Proof.
  intros Hn Hm. destruct n as [|n]; [lia|]. destruct m as [|m]; [lia|].
  unfold strip.
  rewrite <- (app_nil_r (fence (S n) ++ body ++ fence (S m))) at 1.
  change (strip_by isspace ((fence (S n) ++ body ++ fence (S m)) ++ []))
    with (strip_by isspace ([] ++ (fence (S n) ++ body ++ fence (S m)) ++ [])).
  apply (strip_by_padded isspace [] [] _ backtick backtick
           (fence n ++ body ++ fence (S m))
           (fence (S n) ++ body ++ fence m)); auto.
  unfold fence. rewrite <- !app_assoc.
  change (repeat backtick (S m)) with (backtick :: repeat backtick m).
  rewrite <- repeat_cons. reflexivity.
Qed.

(** The reply in the fence, for a fence that is closed. *)
Lemma parse_closed_fence (n m : nat) (body : str) :
  (3 <= n)%nat -> (1 <= m)%nat ->
  hd backtick body <> backtick -> last body backtick <> backtick ->
  _safe_json_parse (fence n ++ body ++ fence m)
    = json_loads (strip (drop_tag body)).
Proof.
  intros Hn Hm Hh Hl. unfold _safe_json_parse. cbv zeta.
  rewrite strip_closed_fence by lia.
  rewrite startswith_fence by assumption.
  unfold unfence. cbv zeta.
  rewrite strip_backticks_fenced by assumption. reflexivity.
Qed.

(** X12: a reply in a closed fence whose first line is the tag [json] or
    [javascript], in any case and with white space around it, is parsed as
    the document that follows the tag line, whenever that document has no
    line boundary other than line feeds. *)
Theorem X12_tagged_fence_gives_the_document (n m : nat) (first doc : str) :
  (3 <= n)%nat -> (1 <= m)%nat ->
  one_line first ->
  strip (lower first) = lit "json" \/ strip (lower first) = lit "javascript" ->
  lf_only doc -> last doc 10 <> backtick ->
  _safe_json_parse (fence n ++ (first ++ 10 :: doc) ++ fence m)
    = json_loads (strip doc).
Proof.
  intros Hn Hm H1 Ht Hlf Hl.
  rewrite parse_closed_fence; try assumption.
  - unfold drop_tag, splitlines. cbv zeta.
    rewrite splitlines_aux_first_line by assumption. cbn [rev app].
    assert (Str.eqb (strip (lower first)) (lit "json")
            || Str.eqb (strip (lower first)) (lit "javascript") = true) as ->.
    { destruct Ht as [-> | ->]; reflexivity. }
    rewrite <- (strip_join_splitlines doc Hlf). reflexivity.
  - destruct first as [|c first].
    + destruct Ht as [H | H]; vm_compute in H; discriminate H.
    + apply (tag_line_head (c :: first) Ht).
  - rewrite last_after_newline. exact Hl.
Qed.

Lemma X12_witness :
  _safe_json_parse
    (fence 3 ++ (lit " JSON" ++ 10 :: lit "[1," ++ 10 :: lit "2]" ++ [10])
     ++ fence 3)
  = json_loads (lit "[1," ++ 10 :: lit "2]").
Proof.
  rewrite (X12_tagged_fence_gives_the_document 3 3 (lit " JSON")
             (lit "[1," ++ 10 :: lit "2]" ++ [10])).
  - vm_compute; reflexivity.
  - lia.
  - lia.
  - repeat constructor.
  - left. vm_compute; reflexivity.
  - repeat constructor; vm_compute; discriminate.
  - vm_compute; discriminate.
Defined.



(** ** The user message *)

(** X14: [.strip()] takes off the two line feeds of the template and
    nothing of the request: the five fields stand in the message as they
    were given, in the order of the template, with all their white
    space. *)
Theorem X14_user_prompt_embeds_the_request (req : GradeRequest) :
  _user_prompt req =
    lit "ASSIGNMENT TYPE: " ++ assignment_type req ++ [10]
    ++ lit "GRADE LEVEL: " ++ grade_level req ++ [10]
    ++ lit "STRICTNESS MODE: " ++ strictness req ++ [10]
    ++ [10]
    ++ lit "RUBRIC (authoritative):" ++ [10]
    ++ rubric req ++ [10]
    ++ [10]
    ++ lit "STUDENT WORK TO GRADE:" ++ [10]
    ++ student_work req ++ [10]
    ++ [10]
    ++ join [10] instructions.
Proof.
  assert (exists front, join [10] instructions = front ++ [46]) as [front E].
  { exists (removelast (join [10] instructions)). vm_compute; reflexivity. }
  unfold _user_prompt, strip. rewrite E.
  match goal with
  | |- _ = ?c =>
      set (core := c);
      match goal with
      | |- strip_by _ ?t = _ => replace t with ([10] ++ core ++ [10])
      end
  end.
  2: { unfold core. rewrite <- !app_assoc. reflexivity. }
  eapply (strip_by_padded isspace [10] [10] core 65 46).
  - reflexivity.
  - unfold core. rewrite !app_assoc. reflexivity.
  - reflexivity.
  - reflexivity.
  - repeat constructor.
  - repeat constructor.
Qed.
